(** * AI Widget Chat, front end: chat state, chat view and widget helpers

    A shallow embedding of the Angular front end
    ([services/chat.service.ts], [services/widget.service.ts],
    [components/chat/chat.component.ts], the widget component and
    [models/chat.model.ts]) and the properties its specification states.

    Conventions.
    - A JavaScript string is the Rocq [string] of its UTF-8 encoding.
    - A [number] that is an identifier or a time value (milliseconds since
      the epoch) is a [Z]; a [number] that is a measurement (a temperature)
      is a binary64 [float], with the arithmetic of the hardware.
    - [null] and [undefined] of an optional record are [None].
    - The subjects of the chat service, the fields of the chat view and the
      HTTP requests the two have issued are one explicit state, [App.t];
      every method and every callback is a function on it. *)

From Stdlib Require Import ZArith String Ascii List Bool Lia Floats DecimalString.
Import ListNotations.
Open Scope string_scope.
Set Warnings "-register-all".

(* ================================================================== *)
(** * The JavaScript runtime *)
(* ================================================================== *)

Module Js.

(** ** Values of type [any] (the body of a parsed JSON response) *)

Inductive value : Type :=
| Undefined
| Null
| Boolean (b : bool)
| Number (x : float)
| Str (s : string)
| Array (items : list value)
| Object (fields : list (string * value)).

(** ToBoolean: [undefined], [null], [false], [0], [-0], [NaN] and the
    empty string are falsy, every array and object is truthy. *)
Definition truthy (v : value) : bool :=
  match v with
  | Undefined | Null => false
  | Boolean b => b
  | Number x => negb (PrimFloat.eqb x 0 || PrimFloat.is_nan x)
  | Str s => negb (String.eqb s "")
  | Array _ | Object _ => true
  end.

(** [a || null] on a value that may be missing. *)
Definition or_null (v : value) : option value :=
  if truthy v then Some v else None.

(** ** Library functions whose text is not part of the program

    [Date_parse s] is [new Date(s).getTime()], [None] standing for the
    [NaN] of an invalid date; [Date_toISOString t] is
    [new Date(t).toISOString()]; [Number_toString x] is the conversion of
    a number to a string, used by [toFixed] outside its own range. *)
Class Runtime : Type := {
  Date_parse : string -> option Z;
  Date_toISOString : Z -> string;
  Number_toString : float -> string
}.

(** ** Strings *)

(** The decimal numeral of an integer, as a template literal prints it. *)
Definition string_of_Z (z : Z) : string :=
  NilEmpty.string_of_int (Z.to_int z).

(** UTF-8 encoding of a code point of the basic multilingual plane. *)
Definition utf8 (cp : N) : list ascii :=
  if (cp <? 0x80)%N then [ascii_of_N cp]
  else if (cp <? 0x800)%N then
    [ascii_of_N (0xC0 + cp / 64); ascii_of_N (0x80 + cp mod 64)]
  else
    [ascii_of_N (0xE0 + cp / 4096);
     ascii_of_N (0x80 + (cp / 64) mod 64);
     ascii_of_N (0x80 + cp mod 64)].

(** The code points [String.prototype.trim] removes: WhiteSpace (TAB, VT,
    FF, ZWNBSP and the category Zs) and LineTerminator (LF, CR, LS, PS). *)
Definition whiteSpaceCodePoints : list N :=
  [0x09; 0x0A; 0x0B; 0x0C; 0x0D; 0x20; 0xA0; 0x1680;
   0x2000; 0x2001; 0x2002; 0x2003; 0x2004; 0x2005; 0x2006; 0x2007;
   0x2008; 0x2009; 0x200A; 0x2028; 0x2029; 0x202F; 0x205F; 0x3000;
   0xFEFF]%N.

Definition whiteSpace : list (list ascii) :=
  Eval cbv in map utf8 whiteSpaceCodePoints.

Fixpoint strip_prefix (p l : list ascii) : option (list ascii) :=
  match p, l with
  | [], _ => Some l
  | a :: p', b :: l' => if Ascii.eqb a b then strip_prefix p' l' else None
  | _ :: _, [] => None
  end.

(** Remove one leading occurrence of the first pattern that matches. *)
Fixpoint strip_any (pats : list (list ascii)) (l : list ascii)
  : option (list ascii) :=
  match pats with
  | [] => None
  | p :: pats' =>
      match strip_prefix p l with
      | Some r => Some r
      | None => strip_any pats' l
      end
  end.

(** Remove leading occurrences of the patterns for as long as one matches;
    [fuel] bounds the number of removals. *)
Fixpoint skip (pats : list (list ascii)) (fuel : nat) (l : list ascii)
  : list ascii :=
  match fuel with
  | O => l
  | S fuel' =>
      match strip_any pats l with
      | Some r => skip pats fuel' r
      | None => l
      end
  end.

Definition skip_all (pats : list (list ascii)) (l : list ascii) : list ascii :=
  skip pats (List.length l) l.

Definition trimStart_bytes (l : list ascii) : list ascii :=
  skip_all whiteSpace l.

(** The same encodings read from the end of the string. *)
Definition whiteSpace_rev : list (list ascii) :=
  Eval cbv in map (@rev ascii) whiteSpace.

Definition trimEnd_bytes (l : list ascii) : list ascii :=
  rev (skip_all whiteSpace_rev (rev l)).

(** [String.prototype.trim] *)
Definition trim (s : string) : string :=
  string_of_list_ascii
    (trimEnd_bytes (trimStart_bytes (list_ascii_of_string s))).

(** A string made of white space and line terminators only. *)
Inductive blank_bytes : list ascii -> Prop :=
| blank_nil : blank_bytes []
| blank_app (p l : list ascii) :
    In p whiteSpace -> blank_bytes l -> blank_bytes (p ++ l).

Definition blank (s : string) : Prop := blank_bytes (list_ascii_of_string s).

(** ** [Number.prototype.toFixed(1)]

    For a finite [x] below [10^21] in magnitude: the integer [n] for which
    [n / 10 - |x|] is closest to zero, the larger one on a tie, printed
    with one digit after the point and a minus sign when [x < 0]. The
    value of a finite binary64 number is [m * 2^e] exactly, so [n] is
    computed on integers. Every other number goes through
    [Number_toString]. *)
Definition tenths (m : positive) (e : Z) : Z :=
  let up := (2 ^ Z.max e 0)%Z in
  let down := (2 ^ Z.max (- e) 0)%Z in
  ((20 * Z.pos m * up + down) / (2 * down))%Z.

(** [10^21 <= m * 2^e] *)
Definition beyond_fixed (m : positive) (e : Z) : bool :=
  (10 ^ 21 * 2 ^ Z.max (- e) 0 <=? Z.pos m * 2 ^ Z.max e 0)%Z.

Definition fixed1 (n : Z) : string :=
  string_of_Z (n / 10)%Z ++ "." ++ string_of_Z (n mod 10)%Z.

Definition toFixed1 `{Runtime} (x : float) : string :=
  match Prim2SF x with
  | S754_zero _ => fixed1 0
  | S754_finite s m e =>
      if beyond_fixed m e then Number_toString x
      else (if s then "-" else "") ++ fixed1 (tenths m e)
  | S754_infinity _ | S754_nan => Number_toString x
  end.

End Js.

(* ================================================================== *)
(** * models/chat.model.ts *)
(* ================================================================== *)

Module ChatSession.
Record t : Type := mk {
  id : Z;
  user_id : string;
  title : option string;
  created_at : string;
  updated_at : string
}.
End ChatSession.

Inductive WidgetType : Type := weather | stock | news | clock | custom.

Inductive Size : Type := small | medium | large.
Inductive Theme : Type := light | dark | auto.

Module WidgetConfig.
Record t : Type := mk {
  size : Size;
  theme : Theme;
  refreshInterval : option Z;
  extra : list (string * Js.value)
}.
End WidgetConfig.

Module WidgetAction.
Record t : Type := mk {
  type : string;
  label : string;
  icon : option string;
  description : option string;
  extra : list (string * Js.value)
}.
End WidgetAction.

Module WidgetMetadata.
Record t : Type := mk {
  created_at : string;
  updated_at : string;
  source : string;
  version : string
}.
End WidgetMetadata.

Module Widget.
Record t : Type := mk {
  id : string;
  type : WidgetType;
  title : string;
  data : Js.value;
  config : WidgetConfig.t;
  actions : option (list WidgetAction.t);
  metadata : option WidgetMetadata.t
}.
End Widget.

Inductive Role : Type := user | assistant.

Module Message.
Record t : Type := mk {
  id : Z;
  session_id : Z;
  content : string;
  role : Role;
  widgets : option (list Widget.t);
  created_at : string
}.
End Message.

Module ChatRequest.
Record t : Type := mk {
  message : string;
  session_id : option Z;
  user_id : string
}.
End ChatRequest.

Module ChatResponse.
Record t : Type := mk {
  user_message : Message.t;
  assistant_message : Message.t;
  session_id : Z;
  widgets : option (list Widget.t)
}.
End ChatResponse.

(* ================================================================== *)
(** * services/widget.service.ts: the helpers *)
(* ================================================================== *)

Module WidgetService.
Import Js.

(** [widget?.data as WeatherData || null]: the cast is erased, the
    parameter may be [null] at run time. *)
Definition extractWeatherData (widget : option Widget.t) : option value :=
  match widget with
  | Some w => or_null (Widget.data w)
  | None => None
  end.

Definition extractStockData (widget : option Widget.t) : option value :=
  match widget with
  | Some w => or_null (Widget.data w)
  | None => None
  end.

Definition extractNewsData (widget : option Widget.t) : option value :=
  match widget with
  | Some w => or_null (Widget.data w)
  | None => None
  end.

Definition extractClockData (widget : option Widget.t) : option value :=
  match widget with
  | Some w => or_null (Widget.data w)
  | None => None
  end.

Inductive Unit : Type := celsius | fahrenheit.

(** [unit] is [None] when the caller leaves the argument out. *)
Definition formatTemperature `{Runtime} (temp : float) (unit : option Unit)
  : string :=
  let unit := match unit with Some u => u | None => celsius end in
  match unit with
  | fahrenheit =>
      let fahrenheit := (temp * 9 / 5 + 32)%float in
      toFixed1 fahrenheit ++ "°F"
  | celsius => toFixed1 temp ++ "°C"
  end.

(** [now] is the reading of the clock by [new Date()]. The difference of
    two time values is an integer number of milliseconds, and the floor of
    its quotient by a positive integer is [Z.div]. *)
Definition formatRelativeTime `{Runtime} (now : Z) (timestamp : string)
  : string :=
  match Date_parse timestamp with
  | None => "NaNd ago"
  | Some date =>
      let diffInSeconds := ((now - date) / 1000)%Z in
      if (diffInSeconds <? 60)%Z then "Just now"
      else if (diffInSeconds <? 3600)%Z then
        string_of_Z (diffInSeconds / 60) ++ "m ago"
      else if (diffInSeconds <? 86400)%Z then
        string_of_Z (diffInSeconds / 3600) ++ "h ago"
      else string_of_Z (diffInSeconds / 86400) ++ "d ago"
  end.

End WidgetService.

(* ================================================================== *)
(** * The widget component: dispatch on the widget's type *)
(* ================================================================== *)

Module WidgetComponent.

Definition getWeatherData (widget : Widget.t) : option Js.value :=
  WidgetService.extractWeatherData (Some widget).
Definition getStockData (widget : Widget.t) : option Js.value :=
  WidgetService.extractStockData (Some widget).
Definition getNewsData (widget : Widget.t) : option Js.value :=
  WidgetService.extractNewsData (Some widget).
Definition getClockData (widget : Widget.t) : option Js.value :=
  WidgetService.extractClockData (Some widget).

Definition getWidgetData (widget : Widget.t) : option Js.value :=
  match Widget.type widget with
  | weather => getWeatherData widget
  | stock => getStockData widget
  | news => getNewsData widget
  | clock => getClockData widget
  | custom => None
  end.

End WidgetComponent.

(* ================================================================== *)
(** * The state of the running front end *)
(* ================================================================== *)

Module Http.
(** A request handed to [HttpClient] by subscribing to the observable a
    service method returns. *)
Inductive call : Type :=
| GetSessions (userId : string)
| PostSession (userId : string) (title : option string)
| GetSessionMessages (sessionId : Z)
| PostMessage (request : ChatRequest.t)
| DeleteSession (sessionId : Z).
End Http.

Module Snack.
(** One call of [MatSnackBar.open]. *)
Record t : Type := mk {
  message : string;
  action : string;
  duration : Z;
  panelClass : list string
}.
End Snack.

Module App.

(** The two [BehaviorSubject]s of [ChatService], the fields of
    [ChatComponent] between [ngOnInit] and [ngOnDestroy], the requests
    issued so far (oldest first) and the snack bars opened so far. *)
Record t : Type := mk {
  currentSessionSubject : option ChatSession.t;
  messagesSubject : list Message.t;
  currentMessage : string;
  isLoading : bool;
  sessions : list ChatSession.t;
  messages : list Message.t;
  currentSession : option ChatSession.t;
  sidebarOpen : bool;
  requests : list Http.call;
  snackBar : list Snack.t
}.

Definition set_currentSessionSubject (v : option ChatSession.t) (a : t) : t :=
  mk v (messagesSubject a) (currentMessage a) (isLoading a) (sessions a)
     (messages a) (currentSession a) (sidebarOpen a) (requests a) (snackBar a).

Definition set_messagesSubject (v : list Message.t) (a : t) : t :=
  mk (currentSessionSubject a) v (currentMessage a) (isLoading a) (sessions a)
     (messages a) (currentSession a) (sidebarOpen a) (requests a) (snackBar a).

Definition set_currentMessage (v : string) (a : t) : t :=
  mk (currentSessionSubject a) (messagesSubject a) v (isLoading a) (sessions a)
     (messages a) (currentSession a) (sidebarOpen a) (requests a) (snackBar a).

Definition set_isLoading (v : bool) (a : t) : t :=
  mk (currentSessionSubject a) (messagesSubject a) (currentMessage a) v
     (sessions a) (messages a) (currentSession a) (sidebarOpen a)
     (requests a) (snackBar a).

Definition set_sessions (v : list ChatSession.t) (a : t) : t :=
  mk (currentSessionSubject a) (messagesSubject a) (currentMessage a)
     (isLoading a) v (messages a) (currentSession a) (sidebarOpen a)
     (requests a) (snackBar a).

Definition set_messages (v : list Message.t) (a : t) : t :=
  mk (currentSessionSubject a) (messagesSubject a) (currentMessage a)
     (isLoading a) (sessions a) v (currentSession a) (sidebarOpen a)
     (requests a) (snackBar a).

Definition set_currentSession (v : option ChatSession.t) (a : t) : t :=
  mk (currentSessionSubject a) (messagesSubject a) (currentMessage a)
     (isLoading a) (sessions a) (messages a) v (sidebarOpen a)
     (requests a) (snackBar a).

Definition set_sidebarOpen (v : bool) (a : t) : t :=
  mk (currentSessionSubject a) (messagesSubject a) (currentMessage a)
     (isLoading a) (sessions a) (messages a) (currentSession a) v
     (requests a) (snackBar a).

(** Subscribing to a request observable sends the request. *)
Definition issue (c : Http.call) (a : t) : t :=
  mk (currentSessionSubject a) (messagesSubject a) (currentMessage a)
     (isLoading a) (sessions a) (messages a) (currentSession a)
     (sidebarOpen a) (requests a ++ [c])%list (snackBar a).

Definition open_snack (s : Snack.t) (a : t) : t :=
  mk (currentSessionSubject a) (messagesSubject a) (currentMessage a)
     (isLoading a) (sessions a) (messages a) (currentSession a)
     (sidebarOpen a) (requests a) (snackBar a ++ [s])%list.

(** The state a freshly constructed service and view start from. *)
Definition init : t :=
  mk None [] "" false [] [] None true [] [].

(** [currentSessionSubject.next(v)]: the subject keeps [v] and the view's
    subscription ([subscribeToChatUpdates]) copies it at once. *)
Definition next_currentSession (v : option ChatSession.t) (a : t) : t :=
  set_currentSession v (set_currentSessionSubject v a).

(** [messagesSubject.next(v)], likewise. *)
Definition next_messages (v : list Message.t) (a : t) : t :=
  set_messages v (set_messagesSubject v a).

End App.

(* ================================================================== *)
(** * services/chat.service.ts *)
(* ================================================================== *)

Module ChatService.
Import Js.

(** The methods that return a request observable send the request when
    the caller subscribes; what [tap] does with a response is the
    function named [_tap]. A failed request runs no [tap]. *)

Definition createSession (userId : string) (title : option string)
  (a : App.t) : App.t :=
  App.issue (Http.PostSession userId title) a.

Definition createSession_tap (session : ChatSession.t) (a : App.t) : App.t :=
  App.next_currentSession (Some session) a.

Definition getSessions (userId : string) (a : App.t) : App.t :=
  App.issue (Http.GetSessions userId) a.

Definition getSessionMessages (sessionId : Z) (a : App.t) : App.t :=
  App.issue (Http.GetSessionMessages sessionId) a.

Definition getSessionMessages_tap (messages : list Message.t) (a : App.t)
  : App.t :=
  App.next_messages messages a.

Definition sendMessage (request : ChatRequest.t) (a : App.t) : App.t :=
  App.issue (Http.PostMessage request) a.

(** [t1] and [t2] are the readings of the clock by the two [new Date()]. *)
Definition sendMessage_tap `{Runtime} (request : ChatRequest.t)
  (response : ChatResponse.t) (t1 t2 : Z) (a : App.t) : App.t :=
  let a :=
    App.next_currentSession
      (Some (ChatSession.mk (ChatResponse.session_id response)
                            (ChatRequest.user_id request)
                            (Some "Current Chat")
                            (Date_toISOString t1)
                            (Date_toISOString t2))) a in
  let currentMessages := App.messagesSubject a in
  let updatedMessages :=
    (currentMessages ++ [ChatResponse.user_message response;
                         ChatResponse.assistant_message response])%list in
  App.next_messages updatedMessages a.

Definition deleteSession (sessionId : Z) (a : App.t) : App.t :=
  App.issue (Http.DeleteSession sessionId) a.

Definition setCurrentSession (session : option ChatSession.t) (a : App.t)
  : App.t :=
  let a := App.next_currentSession session a in
  match session with
  | Some s => getSessionMessages (ChatSession.id s) a
  | None => App.next_messages [] a
  end.

Definition clearCurrentSession (a : App.t) : App.t :=
  App.next_messages [] (App.next_currentSession None a).

Definition getCurrentSession (a : App.t) : option ChatSession.t :=
  App.currentSessionSubject a.

Definition getCurrentMessages (a : App.t) : list Message.t :=
  App.messagesSubject a.

End ChatService.

(* ================================================================== *)
(** * components/chat/chat.component.ts *)
(* ================================================================== *)

Module ChatComponent.
Import Js.

Definition showError (message : string) (a : App.t) : App.t :=
  App.open_snack (Snack.mk message "Close" 3000 ["error-snackbar"]) a.

Definition showSuccess (message : string) (a : App.t) : App.t :=
  App.open_snack (Snack.mk message "Close" 2000 ["success-snackbar"]) a.

(** The argument is [null] when [deleteSession] passes
    [this.sessions[0] || null] on an empty list. *)
Definition setCurrentSession (session : option ChatSession.t) (a : App.t)
  : App.t :=
  ChatService.setCurrentSession session a.

Definition loadSessions (a : App.t) : App.t :=
  ChatService.getSessions "default_user" a.

Definition loadSessions_next (sessions : list ChatSession.t) (a : App.t)
  : App.t :=
  let a := App.set_sessions sessions a in
  match sessions, App.currentSession a with
  | s0 :: _, None => setCurrentSession (Some s0) a
  | _, _ => a
  end.

Definition loadSessions_error (a : App.t) : App.t :=
  showError "Failed to load chat sessions" a.

(** The model binding of the input box writes what the user types. *)
Definition input (text : string) (a : App.t) : App.t :=
  App.set_currentMessage text a.

(** The guard [!this.currentMessage.trim() || this.isLoading]. *)
Definition sendMessage_refused (a : App.t) : bool :=
  String.eqb (trim (App.currentMessage a)) "" || App.isLoading a.

Definition sendMessage (a : App.t) : App.t :=
  if sendMessage_refused a then a
  else
    let message := trim (App.currentMessage a) in
    let a := App.set_currentMessage "" a in
    let a := App.set_isLoading true a in
    let request :=
      ChatRequest.mk message
                     (option_map ChatSession.id (App.currentSession a))
                     "default_user" in
    ChatService.sendMessage request a.

(** [focusInput] only moves the focus of the page. *)
Definition sendMessage_next (response : ChatResponse.t) (a : App.t) : App.t :=
  App.set_isLoading false a.

(** [message] is the constant the closure of [sendMessage] holds. *)
Definition sendMessage_error (message : string) (a : App.t) : App.t :=
  let a := App.set_isLoading false a in
  let a := showError "Failed to send message" a in
  App.set_currentMessage message a.

(** A response to the request of [sendMessage] runs the service's [tap]
    and then the view's [next]. *)
Definition sendMessage_succeeds `{Runtime} (request : ChatRequest.t)
  (response : ChatResponse.t) (t1 t2 : Z) (a : App.t) : App.t :=
  sendMessage_next response
    (ChatService.sendMessage_tap request response t1 t2 a).

(** A failure of that request runs the view's [error] only. *)
Definition sendMessage_fails (request : ChatRequest.t) (a : App.t) : App.t :=
  sendMessage_error (ChatRequest.message request) a.

(** [title] is what [prompt] returned, [None] when it was cancelled. *)
Definition createNewSession (title : option string) (a : App.t) : App.t :=
  match title with
  | Some t =>
      if String.eqb t "" then a
      else ChatService.createSession "default_user" (Some t) a
  | None => a
  end.

Definition createNewSession_succeeds (session : ChatSession.t) (a : App.t)
  : App.t :=
  let a := ChatService.createSession_tap session a in
  let a := App.set_sessions (session :: App.sessions a) a in
  let a := setCurrentSession (Some session) a in
  showSuccess "New chat session created" a.

Definition createNewSession_error (a : App.t) : App.t :=
  showError "Failed to create new session" a.

(** [confirmed] is the answer of the [confirm] dialog. *)
Definition deleteSession (session : ChatSession.t) (confirmed : bool)
  (a : App.t) : App.t :=
  if confirmed then ChatService.deleteSession (ChatSession.id session) a
  else a.

(** [this.currentSession?.id === session.id] *)
Definition is_current (session : ChatSession.t) (a : App.t) : bool :=
  match App.currentSession a with
  | Some c => (ChatSession.id c =? ChatSession.id session)%Z
  | None => false
  end.

Definition deleteSession_next (session : ChatSession.t) (a : App.t) : App.t :=
  let a :=
    App.set_sessions
      (filter (fun s => negb (ChatSession.id s =? ChatSession.id session)%Z)
              (App.sessions a)) a in
  let a :=
    if is_current session a then setCurrentSession (hd_error (App.sessions a)) a
    else a in
  showSuccess "Chat session deleted" a.

Definition deleteSession_error (a : App.t) : App.t :=
  showError "Failed to delete session" a.

Definition toggleSidebar (a : App.t) : App.t :=
  App.set_sidebarOpen (negb (App.sidebarOpen a)) a.

End ChatComponent.

(* ================================================================== *)
(** * A runtime and some data to evaluate examples with *)
(* ================================================================== *)

Module Example.
Import Js.

Definition pad (width : nat) (n : Z) : string :=
  let s := string_of_Z n in
  string_of_list_ascii (repeat "0"%char (width - String.length s)) ++ s.

(** The ISO form of an instant of the first day of 1970. *)
Definition iso_first_day (t : Z) : string :=
  "1970-01-01T" ++ pad 2 (t / 3600000) ++ ":" ++ pad 2 (t / 60000 mod 60)
    ++ ":" ++ pad 2 (t / 1000 mod 60) ++ "." ++ pad 3 (t mod 1000) ++ "Z".

(** It prints the instants of the first day of 1970, parses three time
    stamps of that day and says nothing about any other date or number. *)
Definition runtime : Runtime := {|
  Date_parse := fun s =>
    if String.eqb s "1970-01-01T00:00:00.000Z" then Some 0%Z
    else if String.eqb s "1970-01-01T00:01:01.000Z" then Some 61000%Z
    else if String.eqb s "1970-01-01T01:01:01.000Z" then Some 3661000%Z
    else None;
  Date_toISOString := iso_first_day;
  Number_toString := fun _ => ""
|}.

Definition config : WidgetConfig.t := WidgetConfig.mk medium light None [].

Definition stock_widget : Widget.t :=
  Widget.mk "w-1" stock "AAPL"
            (Object [("symbol", Str "AAPL"); ("volume", Number 1000)])
            config None None.

Definition trip : ChatSession.t :=
  ChatSession.mk 7 "u1" (Some "Trip")
                 "1970-01-01T00:00:00.000Z" "1970-01-01T00:00:00.000Z".

Definition work : ChatSession.t :=
  ChatSession.mk 8 "u1" (Some "Work")
                 "1970-01-01T00:01:01.000Z" "1970-01-01T00:01:01.000Z".

Definition question : Message.t :=
  Message.mk 1 7 "Weather in Paris?" user None "1970-01-01T00:00:00.000Z".

Definition answer : Message.t :=
  Message.mk 2 7 "Sunny." assistant None "1970-01-01T00:00:00.000Z".

(** A view that shows the session [trip] out of [trip] and [work]. *)
Definition showing_trip : App.t :=
  App.mk (Some trip) [question; answer] "" false [trip; work]
         [question; answer] (Some trip) true [] [].

End Example.

(* ================================================================== *)
(** * More of the runtime: property access and [toFixed] in general *)
(* ================================================================== *)

Module JsMore.
Import Js.

(** The value of the property [key] of an object whose own properties are
    [fields]; [undefined] when there is none. The first binding of a key
    is the one the object holds. *)
Fixpoint lookup (key : string) (fields : list (string * value)) : value :=
  match fields with
  | [] => Undefined
  | (k, v) :: rest => if String.eqb k key then v else lookup key rest
  end.

(** [data.mock] for a [data] that is neither [null] nor [undefined]: a
    number, a string, a boolean and an array have no such property. *)
Definition mock_of (data : value) : value :=
  match data with
  | Object fields => lookup "mock" fields
  | _ => Undefined
  end.

(** [v === true] *)
Definition is_true (v : value) : bool :=
  match v with
  | Boolean true => true
  | _ => false
  end.

(** [s] with zeros on its left up to [width] characters. *)
Definition pad_zeros (width : nat) (s : string) : string :=
  string_of_list_ascii (repeat "0"%char (width - String.length s)) ++ s.

(** [floor (m * 2^e * 10^f + 1/2)] *)
Definition scaled (f : nat) (m : positive) (e : Z) : Z :=
  let up := (2 ^ Z.max e 0)%Z in
  let down := (2 ^ Z.max (- e) 0)%Z in
  ((2 * 10 ^ Z.of_nat f * Z.pos m * up + down) / (2 * down))%Z.

(** The digits of [n] with a point before the last [f] of them. *)
Definition fixed (f : nat) (n : Z) : string :=
  match f with
  | O => string_of_Z n
  | S _ =>
      string_of_Z (n / 10 ^ Z.of_nat f)%Z ++ "."
        ++ pad_zeros f (string_of_Z (n mod 10 ^ Z.of_nat f)%Z)
  end.

(** [Number.prototype.toFixed(f)], as [toFixed1] for one digit. *)
Definition toFixed `{Runtime} (f : nat) (x : float) : string :=
  match Prim2SF x with
  | S754_zero _ => fixed f 0
  | S754_finite s m e =>
      if beyond_fixed m e then Number_toString x
      else (if s then "-" else "") ++ fixed f (scaled f m e)
  | S754_infinity _ | S754_nan => Number_toString x
  end.

(** The numbers [toFixed] prints itself. *)
Definition in_fixed_range (x : float) : bool :=
  match Prim2SF x with
  | S754_zero _ => true
  | S754_finite _ m e => negb (beyond_fixed m e)
  | S754_infinity _ | S754_nan => false
  end.

End JsMore.

(* ================================================================== *)
(** * services/widget.service.ts: requests and the other helpers *)
(* ================================================================== *)

Module WidgetDataRequest.
Record t : Type := mk {
  widget_type : string;
  params : list (string * Js.value)
}.
End WidgetDataRequest.

Module WidgetHttp.
Inductive call : Type :=
| GetConfigs (params : list (string * string))
| PostRefresh (widget_id : string) (force_refresh : bool)
| DeleteCache (params : list (string * string)).

(** The query parameters of a request. *)
Definition params_of (c : call) : list (string * string) :=
  match c with
  | GetConfigs params | DeleteCache params => params
  | PostRefresh _ _ => []
  end.

(** The value a query carries under the name [k], the first if several. *)
Definition assoc (k : string) (params : list (string * string))
  : option string :=
  option_map snd (find (fun p => String.eqb (fst p) k) params).
End WidgetHttp.

Module WidgetApi.
Import Js JsMore.

(** [if (x) params.k = x]: a missing and an empty string are both falsy. *)
Definition given (x : option string) : option string :=
  match x with
  | Some s => if String.eqb s "" then None else Some s
  | None => None
  end.

Definition add_param (k : string) (x : option string)
  (params : list (string * string)) : list (string * string) :=
  match given x with
  | Some s => (params ++ [(k, s)])%list
  | None => params
  end.

Definition getWidgetConfigs (userId widgetType : option string)
  : WidgetHttp.call :=
  let params := [] in
  let params := add_param "user_id" userId params in
  let params := add_param "widget_type" widgetType params in
  WidgetHttp.GetConfigs params.

(** [forceRefresh] is [None] when the caller leaves the argument out. *)
Definition refreshWidgetData (widgetId : string) (forceRefresh : option bool)
  : WidgetHttp.call :=
  let forceRefresh :=
    match forceRefresh with Some b => b | None => false end in
  WidgetHttp.PostRefresh widgetId forceRefresh.

Definition clearWidgetCache (widgetType : option string) : WidgetHttp.call :=
  let params := [] in
  let params := add_param "widget_type" widgetType params in
  WidgetHttp.DeleteCache params.

Definition add_field (k : string) (x : option string)
  (params : list (string * value)) : list (string * value) :=
  match given x with
  | Some s => (params ++ [(k, Str s)])%list
  | None => params
  end.

Definition createWeatherWidgetData (location : string) : WidgetDataRequest.t :=
  WidgetDataRequest.mk "weather" [("location", Str location)].

Definition createStockWidgetData (symbol : string) : WidgetDataRequest.t :=
  WidgetDataRequest.mk "stock" [("symbol", Str symbol)].

Definition createNewsWidgetData (query : string) (category : option string)
  : WidgetDataRequest.t :=
  let params := [("query", Str query)] in
  let params := add_field "category" category params in
  WidgetDataRequest.mk "news" params.

Definition createClockWidgetData (timezone : string)
  (location : option string) : WidgetDataRequest.t :=
  let params := [("timezone", Str timezone)] in
  let params := add_field "location" location params in
  WidgetDataRequest.mk "clock" params.

(** [value >= 0] is false for [NaN]. *)
Definition formatPercentage `{Runtime} (value : float) : string :=
  (if PrimFloat.leb 0 value then "+" else "") ++ toFixed 2 value ++ "%".

Definition getWeatherIconUrl (iconCode : string) : string :=
  "https://openweathermap.org/img/wn/" ++ iconCode ++ "@2x.png".

End WidgetApi.

(* ================================================================== *)
(** * The widget component: actions, refresh and flags *)
(* ================================================================== *)

Module WidgetView.
Import Js JsMore.

(** The fields of one widget component and the requests it has sent,
    oldest first. What it writes to the console is not kept. *)
Record t : Type := mk {
  widget : Widget.t;
  isLoading : bool;
  error : option string;
  requests : list WidgetHttp.call
}.

Definition refreshWidget (v : t) : t :=
  mk (widget v) true None
     (requests v
        ++ [WidgetApi.refreshWidgetData (Widget.id (widget v)) (Some true)])%list.

Definition refreshWidget_next (v : t) : t :=
  mk (widget v) false (error v) (requests v).

Definition refreshWidget_error (v : t) : t :=
  mk (widget v) false (Some "Failed to refresh widget") (requests v).

(** Both only write to the console. *)
Definition configureWidget (v : t) : t := v.
Definition fullscreenWidget (v : t) : t := v.

Definition onAction (action : WidgetAction.t) (v : t) : t :=
  if String.eqb (WidgetAction.type action) "refresh" then refreshWidget v
  else if String.eqb (WidgetAction.type action) "configure" then
    configureWidget v
  else if String.eqb (WidgetAction.type action) "fullscreen" then
    fullscreenWidget v
  else v.

(** [this.widget.config['maxArticles'] || 3]: the key is none of the
    named fields of the configuration. *)
Definition getMaxArticles (v : t) : value :=
  let configured :=
    lookup "maxArticles" (WidgetConfig.extra (Widget.config (widget v))) in
  if truthy configured then configured else Number 3.

(** [!!(data && data.mock === true)] *)
Definition isMockData (v : t) : bool :=
  match WidgetComponent.getWidgetData (widget v) with
  | Some data => is_true (mock_of data)
  | None => false
  end.

(** A component as Angular creates it for [widget]. *)
Definition init (widget : Widget.t) : t := mk widget false None [].

(** What happens to a widget component: the user picks an action, or a
    refresh comes back. A response may come at any time here; what holds
    of every sequence holds of those in which responses follow their
    requests. *)
Inductive event : Type :=
| Act (action : WidgetAction.t)
| Refreshed
| Refresh_failed.

Definition step (v : t) (e : event) : t :=
  match e with
  | Act action => onAction action v
  | Refreshed => refreshWidget_next v
  | Refresh_failed => refreshWidget_error v
  end.

Definition run (v : t) (events : list event) : t := fold_left step events v.

Definition is_refresh (e : event) : bool :=
  match e with
  | Act action => String.eqb (WidgetAction.type action) "refresh"
  | _ => false
  end.

End WidgetView.

(* ================================================================== *)
(** * components/chat/message/message.component.ts *)
(* ================================================================== *)

Module MessageComponent.

Definition isUser (message : Message.t) : bool :=
  match Message.role message with user => true | assistant => false end.

Definition isAssistant (message : Message.t) : bool :=
  match Message.role message with assistant => true | user => false end.

(** [!!(this.message.widgets && this.message.widgets.length > 0)] *)
Definition hasWidgets (message : Message.t) : bool :=
  match Message.widgets message with
  | Some (_ :: _) => true
  | Some [] | None => false
  end.

End MessageComponent.

(* ================================================================== *)
(** * The chat view as a machine: user actions and responses *)
(* ================================================================== *)

Module KeyboardEvent.
Record t : Type := mk {
  key : string;
  shiftKey : bool
}.
End KeyboardEvent.

Module ChatEvents.

(** The second component says whether [preventDefault] was called. *)
Definition onKeyPress (event : KeyboardEvent.t) (a : App.t) : App.t * bool :=
  if String.eqb (KeyboardEvent.key event) "Enter"
     && negb (KeyboardEvent.shiftKey event)
  then (ChatComponent.sendMessage a, true)
  else (a, false).

(** [ngOnInit]: the sessions are requested, and each subscription of
    [subscribeToChatUpdates] receives at once the value its subject
    holds. *)
Definition ngOnInit (a : App.t) : App.t :=
  let a := ChatComponent.loadSessions a in
  let a := App.set_currentSession (App.currentSessionSubject a) a in
  App.set_messages (App.messagesSubject a) a.

(** What the user does with the page. *)
Inductive action : Type :=
| Type_text (text : string)
| Click_send
| Press (event : KeyboardEvent.t)
| Select (session : ChatSession.t)
| Delete (session : ChatSession.t) (confirmed : bool)
| New_session (prompted : option string)
| Toggle_sidebar.

Definition act (u : action) (a : App.t) : App.t :=
  match u with
  | Type_text text => ChatComponent.input text a
  | Click_send => ChatComponent.sendMessage a
  | Press event => fst (onKeyPress event a)
  | Select session => ChatComponent.setCurrentSession (Some session) a
  | Delete session confirmed => ChatComponent.deleteSession session confirmed a
  | New_session prompted => ChatComponent.createNewSession prompted a
  | Toggle_sidebar => ChatComponent.toggleSidebar a
  end.

(** What comes back for a request: a failure, or a body of the kind the
    request asks for. [Chat] carries the two readings of the clock its
    handler makes, [Deleted] the session the closure of [deleteSession]
    holds. *)
Inductive outcome : Type :=
| Failed
| Sessions (sessions : list ChatSession.t)
| Created (session : ChatSession.t)
| Messages (messages : list Message.t)
| Chat (response : ChatResponse.t) (t1 t2 : Z)
| Deleted (session : ChatSession.t).

(** The handlers the view and the service have attached to a request.
    The messages of [setCurrentSession] are subscribed to without an
    error handler: their failure changes nothing. *)
Definition handle `{Js.Runtime} (c : Http.call) (o : outcome) (a : App.t)
  : option App.t :=
  match c, o with
  | Http.GetSessions _, Sessions l => Some (ChatComponent.loadSessions_next l a)
  | Http.GetSessions _, Failed => Some (ChatComponent.loadSessions_error a)
  | Http.PostSession _ _, Created s =>
      Some (ChatComponent.createNewSession_succeeds s a)
  | Http.PostSession _ _, Failed =>
      Some (ChatComponent.createNewSession_error a)
  | Http.GetSessionMessages _, Messages l =>
      Some (ChatService.getSessionMessages_tap l a)
  | Http.GetSessionMessages _, Failed => Some a
  | Http.PostMessage request, Chat response t1 t2 =>
      Some (ChatComponent.sendMessage_succeeds request response t1 t2 a)
  | Http.PostMessage request, Failed =>
      Some (ChatComponent.sendMessage_fails request a)
  | Http.DeleteSession sessionId, Deleted s =>
      if (ChatSession.id s =? sessionId)%Z
      then Some (ChatComponent.deleteSession_next s a)
      else None
  | Http.DeleteSession _, Failed => Some (ChatComponent.deleteSession_error a)
  | _, _ => None
  end.

(** The running page: the state and the requests that wait for their
    response, in the order they were sent. *)
Record page : Type := mk_page {
  app : App.t;
  pending : list Http.call
}.

(** The requests [a'] has sent since [a]. *)
Definition sent_since (a a' : App.t) : list Http.call :=
  skipn (List.length (App.requests a)) (App.requests a').

Definition remove_nth {A : Type} (i : nat) (l : list A) : list A :=
  (firstn i l ++ skipn (S i) l)%list.

Inductive event : Type :=
| User (u : action)
| Response (i : nat) (o : outcome).

(** One event: an action of the user, or the response to the [i]-th
    waiting request. An event that cannot happen gives [None]. *)
Definition step `{Js.Runtime} (p : page) (e : event) : option page :=
  match e with
  | User u =>
      let a' := act u (app p) in
      Some (mk_page a' (pending p ++ sent_since (app p) a')%list)
  | Response i o =>
      match nth_error (pending p) i with
      | Some c =>
          match handle c o (app p) with
          | Some a' =>
              Some (mk_page a'
                      (remove_nth i (pending p) ++ sent_since (app p) a')%list)
          | None => None
          end
      | None => None
      end
  end.

Fixpoint run `{Js.Runtime} (p : page) (events : list event) : option page :=
  match events with
  | [] => Some p
  | e :: rest =>
      match step p e with
      | Some p' => run p' rest
      | None => None
      end
  end.

(** The page once [ngOnInit] has run on a new service and view. *)
Definition start : page :=
  let a := ngOnInit App.init in
  mk_page a (sent_since App.init a).

Definition is_post (c : Http.call) : bool :=
  match c with
  | Http.PostMessage _ => true
  | _ => false
  end.

(** The messages that wait for their answer. *)
Definition in_flight (p : page) : list Http.call :=
  filter is_post (pending p).

(** The view shows what the service holds. *)
Definition synced (a : App.t) : Prop :=
  App.currentSession a = App.currentSessionSubject a /\
  App.messages a = App.messagesSubject a.

(** A request as the view's [sendMessage] builds it. *)
Definition well_formed (c : Http.call) : Prop :=
  match c with
  | Http.PostMessage request =>
      ChatRequest.message request <> "" /\
      Js.trim (ChatRequest.message request) = ChatRequest.message request /\
      ChatRequest.user_id request = "default_user"
  | Http.GetSessions userId => userId = "default_user"
  | Http.PostSession userId title =>
      userId = "default_user" /\ exists t, title = Some t /\ t <> ""
  | _ => True
  end.

End ChatEvents.

(* ================================================================== *)
(** * Facts about [trim] *)
(* ================================================================== *)

Module TrimFacts.
Import Js.

Section Skip.
Variable pats : list (list ascii).

Lemma strip_prefix_spec (p l r : list ascii) :
  strip_prefix p l = Some r <-> l = (p ++ r)%list.
Proof.
  revert l; induction p as [|a p IH]; intros l; simpl.
  - split; congruence.
  - destruct l as [|b l]; [split; discriminate|].
    destruct (Ascii.eqb_spec a b) as [->|ne].
    + rewrite IH; split; congruence.
    + split; [discriminate | congruence].
Qed.

Lemma strip_any_some (l r : list ascii) :
  strip_any pats l = Some r -> exists p, In p pats /\ l = (p ++ r)%list.
Proof.
  induction pats as [|p ps IH]; simpl; [discriminate|].
  destruct (strip_prefix p l) as [r'|] eqn:E.
  - intros [= ->]. apply strip_prefix_spec in E. eauto.
  - intros H. destruct (IH H) as (q & Hq & ->). eauto.
Qed.

Lemma strip_any_none (l : list ascii) :
  strip_any pats l = None ->
  forall p r, In p pats -> l <> (p ++ r)%list.
Proof.
  induction pats as [|q ps IH]; simpl; [tauto|].
  destruct (strip_prefix q l) as [r'|] eqn:E; [discriminate|].
  intros H p r [<-|Hin] ->.
  - assert (X : strip_prefix q (q ++ r) = Some r)
      by (apply strip_prefix_spec; reflexivity).
    congruence.
  - exact (IH H p r Hin eq_refl).
Qed.

Lemma skip_stuck (fuel : nat) (l : list ascii) :
  strip_any pats l = None -> skip pats fuel l = l.
Proof. destruct fuel; simpl; [reflexivity|]. now intros ->. Qed.

Lemma skip_suffix (fuel : nat) (l : list ascii) :
  exists w, l = (w ++ skip pats fuel l)%list.
Proof.
  revert l; induction fuel as [|n IH]; intros l; simpl.
  - now exists [].
  - destruct (strip_any pats l) as [r|] eqn:E; [|now exists []].
    destruct (strip_any_some _ _ E) as (p & _ & ->).
    destruct (IH r) as (w & Hw).
    exists (p ++ w)%list. rewrite <- app_assoc. now f_equal.
Qed.

Hypothesis pats_nonempty : Forall (fun p => p <> []) pats.

Lemma strip_any_shorter (l r : list ascii) :
  strip_any pats l = Some r -> (List.length r < List.length l)%nat.
Proof.
  intros H. destruct (strip_any_some _ _ H) as (p & Hin & ->).
  rewrite Forall_forall in pats_nonempty.
  specialize (pats_nonempty p Hin).
  rewrite length_app. destruct p; [congruence | simpl; lia].
Qed.

(** The fuel [skip_all] gives is enough: nothing is left to remove. *)
Lemma skip_exhausts (fuel : nat) (l : list ascii) :
  (List.length l <= fuel)%nat -> strip_any pats (skip pats fuel l) = None.
Proof.
  revert l; induction fuel as [|n IH]; intros l Hlen; simpl.
  - destruct l; [|simpl in Hlen; lia].
    destruct (strip_any pats []) as [r|] eqn:E; [|reflexivity].
    apply strip_any_shorter in E. simpl in E. lia.
  - destruct (strip_any pats l) as [r|] eqn:E; [|exact E].
    apply IH. apply strip_any_shorter in E. lia.
Qed.

Lemma skip_all_done (l : list ascii) :
  strip_any pats (skip_all pats l) = None.
Proof. apply skip_exhausts. reflexivity. Qed.

Lemma skip_all_idem (l : list ascii) :
  skip_all pats (skip_all pats l) = skip_all pats l.
Proof. unfold skip_all at 1. apply skip_stuck, skip_all_done. Qed.

(** What [skip_all] keeps is a suffix; no prefix of a prefix of a
    stuck list can be removed. *)
Lemma stuck_prefix (u v : list ascii) :
  strip_any pats (u ++ v) = None -> strip_any pats u = None.
Proof.
  intros H. destruct (strip_any pats u) as [r|] eqn:E; [|reflexivity].
  destruct (strip_any_some _ _ E) as (p & Hin & ->).
  exfalso. apply (strip_any_none _ H p (r ++ v)%list Hin).
  now rewrite app_assoc.
Qed.
End Skip.

Lemma whiteSpace_nonempty : Forall (fun p => p <> []) whiteSpace.
Proof. unfold whiteSpace. repeat constructor; discriminate. Qed.

Lemma whiteSpace_rev_nonempty : Forall (fun p => p <> []) whiteSpace_rev.
Proof. unfold whiteSpace_rev. repeat constructor; discriminate. Qed.

Lemma trimStart_bytes_stuck (l : list ascii) :
  strip_any whiteSpace (trimStart_bytes l) = None.
Proof. apply skip_all_done, whiteSpace_nonempty. Qed.

Lemma trimEnd_bytes_prefix (l : list ascii) :
  exists w, l = (trimEnd_bytes l ++ w)%list.
Proof.
  unfold trimEnd_bytes, skip_all.
  destruct (skip_suffix whiteSpace_rev (List.length (rev l)) (rev l))
    as (w & Hw).
  exists (rev w).
  rewrite <- rev_app_distr, <- Hw. now rewrite rev_involutive.
Qed.

Lemma trimEnd_bytes_idem (l : list ascii) :
  trimEnd_bytes (trimEnd_bytes l) = trimEnd_bytes l.
Proof.
  unfold trimEnd_bytes. rewrite rev_involutive.
  f_equal. apply skip_all_idem, whiteSpace_rev_nonempty.
Qed.

Lemma trimStart_trimEnd_stuck (l : list ascii) :
  strip_any whiteSpace l = None ->
  trimStart_bytes (trimEnd_bytes l) = trimEnd_bytes l.
Proof.
  intros H. apply skip_stuck.
  destruct (trimEnd_bytes_prefix l) as (w & Hw).
  apply stuck_prefix with (v := w). now rewrite <- Hw.
Qed.

Lemma trim_idempotent (s : string) : trim (trim s) = trim s.
Proof.
  unfold trim. rewrite list_ascii_of_string_of_list_ascii.
  rewrite trimStart_trimEnd_stuck by apply trimStart_bytes_stuck.
  now rewrite trimEnd_bytes_idem.
Qed.

Lemma strip_whiteSpace (p l : list ascii) :
  In p whiteSpace -> strip_any whiteSpace (p ++ l) = Some l.
Proof.
  unfold whiteSpace. simpl.
  intros H.
  repeat (destruct H as [<-|H]; [reflexivity|]).
  destruct H.
Qed.

Lemma skip_blank (l : list ascii) :
  blank_bytes l ->
  forall fuel, (List.length l <= fuel)%nat -> skip whiteSpace fuel l = [].
Proof.
  induction 1 as [|p l Hp Hl IH]; intros fuel Hlen.
  - destruct fuel; reflexivity.
  - assert (Hne : p <> []).
    { pose proof whiteSpace_nonempty as F. rewrite Forall_forall in F. auto. }
    rewrite length_app in Hlen.
    destruct fuel as [|n].
    + destruct p; [congruence | simpl in Hlen; lia].
    + cbn [skip]. rewrite strip_whiteSpace by assumption.
      apply IH. destruct p; [congruence | simpl in Hlen; lia].
Qed.

Lemma trim_blank (s : string) : blank s -> trim s = "".
Proof.
  unfold blank, trim, trimStart_bytes, skip_all. intros H.
  now rewrite (skip_blank _ H).
Qed.

End TrimFacts.

(* ================================================================== *)
(** * Properties of the widget helpers *)
(* ================================================================== *)

Import Js.

(** C1, as stated, fails: a stock widget whose data is present is not a
    weather widget, and [extractWeatherData] still returns its data. *)
Lemma extractWeatherData_no_type_guard :
  Widget.type Example.stock_widget <> weather /\
  WidgetService.extractWeatherData (Some Example.stock_widget) <> None.
Proof. split; discriminate. Qed.

(** C1, amended: each of the four extraction helpers returns the widget's
    data when that is truthy and none otherwise, whatever the widget's
    type, and none for a missing widget; the type is checked by the caller,
    [getWidgetData], which picks the helper by the type and returns none
    for a type without a helper. *)
Theorem extract_returns_data_whatever_type (w : Widget.t) :
  WidgetService.extractWeatherData (Some w) = or_null (Widget.data w) /\
  WidgetService.extractStockData (Some w) = or_null (Widget.data w) /\
  WidgetService.extractNewsData (Some w) = or_null (Widget.data w) /\
  WidgetService.extractClockData (Some w) = or_null (Widget.data w) /\
  WidgetService.extractWeatherData None = None /\
  WidgetService.extractStockData None = None /\
  WidgetService.extractNewsData None = None /\
  WidgetService.extractClockData None = None /\
  WidgetComponent.getWidgetData w =
    match Widget.type w with
    | custom => None
    | _ => or_null (Widget.data w)
    end.
Proof.
  unfold WidgetComponent.getWidgetData.
  destruct (Widget.type w); repeat split; reflexivity.
Qed.

Section RelativeTime.
Context `{Runtime}.
Open Scope Z_scope.

Lemma seconds_lt (elapsed k : Z) :
  (elapsed / 1000 <? k) = (elapsed <? 1000 * k).
Proof.
  destruct (Z.ltb_spec (elapsed / 1000) k), (Z.ltb_spec elapsed (1000 * k));
    try reflexivity; exfalso.
  - apply (Z.div_le_mono _ _ 1000) in H1; [|lia].
    rewrite Z.mul_comm, Z.div_mul in H1; lia.
  - assert (elapsed / 1000 < k); [|lia].
    apply Z.div_lt_upper_bound; lia.
Qed.

Lemma formatRelativeTime_eq (now date : Z) (timestamp : string) :
  Date_parse timestamp = Some date ->
  WidgetService.formatRelativeTime now timestamp =
    let elapsed := now - date in
    if elapsed <? 60000 then "Just now"
    else if elapsed <? 3600000 then string_of_Z (elapsed / 60000) ++ "m ago"
    else if elapsed <? 86400000 then
      string_of_Z (elapsed / 3600000) ++ "h ago"
    else string_of_Z (elapsed / 86400000) ++ "d ago".
Proof.
  intros Hp. unfold WidgetService.formatRelativeTime. rewrite Hp. cbv zeta.
  rewrite !seconds_lt, !Z.div_div by lia.
  reflexivity.
Qed.
End RelativeTime.

(** C6: for a time stamp in the past, [formatRelativeTime] answers
    "Just now" below 60 seconds of elapsed time, the floored count of
    minutes and "m ago" below one hour, the floored count of hours and
    "h ago" below 24 hours, and the floored count of days and "d ago"
    from there on; 59 s give "Just now", 61 s "1m ago", 3661 s "1h ago". *)
Theorem formatRelativeTime_buckets `{Runtime}
  (now date : Z) (timestamp : string) :
  Date_parse timestamp = Some date ->
  (date <= now)%Z ->
  let elapsed := (now - date)%Z in
  let result := WidgetService.formatRelativeTime now timestamp in
  ((elapsed < 60 * 1000)%Z -> result = "Just now") /\
  ((60 * 1000 <= elapsed < 3600 * 1000)%Z ->
     result = string_of_Z (elapsed / (60 * 1000)) ++ "m ago") /\
  ((3600 * 1000 <= elapsed < 86400 * 1000)%Z ->
     result = string_of_Z (elapsed / (3600 * 1000)) ++ "h ago") /\
  ((86400 * 1000 <= elapsed)%Z ->
     result = string_of_Z (elapsed / (86400 * 1000)) ++ "d ago") /\
  (elapsed = (59 * 1000)%Z -> result = "Just now") /\
  (elapsed = (61 * 1000)%Z -> result = "1m ago") /\
  (elapsed = (3661 * 1000)%Z -> result = "1h ago").
Proof.
  intros Hp Hpast elapsed result.
  assert (E := formatRelativeTime_eq now date timestamp Hp).
  fold result in E. cbv zeta in E. fold elapsed in E. rewrite E. clear E.
  change (60 * 1000)%Z with 60000%Z.
  change (3600 * 1000)%Z with 3600000%Z.
  change (86400 * 1000)%Z with 86400000%Z.
  refine (conj _ (conj _ (conj _ (conj _ (conj _ (conj _ _)))))).
  - intros Hlt. apply Z.ltb_lt in Hlt. now rewrite Hlt.
  - intros [Hge Hlt].
    apply Z.ltb_ge in Hge. apply Z.ltb_lt in Hlt. now rewrite Hge, Hlt.
  - intros [Hge Hlt].
    assert (G : (elapsed <? 60000)%Z = false) by (apply Z.ltb_ge; lia).
    apply Z.ltb_ge in Hge. apply Z.ltb_lt in Hlt. now rewrite G, Hge, Hlt.
  - intros Hge.
    assert (G1 : (elapsed <? 60000)%Z = false) by (apply Z.ltb_ge; lia).
    assert (G2 : (elapsed <? 3600000)%Z = false) by (apply Z.ltb_ge; lia).
    apply Z.ltb_ge in Hge. now rewrite G1, G2, Hge.
  - intros ->. reflexivity.
  - intros ->. reflexivity.
  - intros ->. reflexivity.
Qed.

Lemma formatRelativeTime_buckets_witness :
  @WidgetService.formatRelativeTime Example.runtime
     3661000 "1970-01-01T00:01:01.000Z" = "1h ago" /\
  @WidgetService.formatRelativeTime Example.runtime
     61000 "1970-01-01T00:00:00.000Z" = "1m ago" /\
  @WidgetService.formatRelativeTime Example.runtime
     (61000 + 59000) "1970-01-01T00:01:01.000Z" = "Just now" /\
  @WidgetService.formatRelativeTime Example.runtime
     (3 * 86400000) "1970-01-01T00:00:00.000Z" = "3d ago".
Proof.
  refine (conj _ (conj _ (conj _ _))).
  - refine (proj1 (proj2 (proj2
      (@formatRelativeTime_buckets Example.runtime
         3661000 61000 "1970-01-01T00:01:01.000Z" eq_refl _))) _); lia.
  - refine (proj1 (proj2 (proj2 (proj2 (proj2 (proj2
      (@formatRelativeTime_buckets Example.runtime
         61000 0 "1970-01-01T00:00:00.000Z" eq_refl _)))))) eq_refl); lia.
  - refine (proj1 (proj2 (proj2 (proj2 (proj2
      (@formatRelativeTime_buckets Example.runtime
         (61000 + 59000) 61000 "1970-01-01T00:01:01.000Z" eq_refl _)))))
      eq_refl); lia.
  - refine (proj1 (proj2 (proj2 (proj2
      (@formatRelativeTime_buckets Example.runtime
         (3 * 86400000) 0 "1970-01-01T00:00:00.000Z" eq_refl _)))) _); lia.
Defined.

(** C10: for a time stamp in the future, [formatRelativeTime] answers
    "Just now": the floored difference in seconds is negative, and the
    only test it meets is that it is below 60. *)
Theorem formatRelativeTime_future `{Runtime}
  (now date : Z) (timestamp : string) :
  Date_parse timestamp = Some date ->
  (now < date)%Z ->
  WidgetService.formatRelativeTime now timestamp = "Just now".
Proof.
  intros Hp Hfuture.
  rewrite (formatRelativeTime_eq now date timestamp Hp). cbv zeta.
  assert (G : (now - date <? 60000)%Z = true) by (apply Z.ltb_lt; lia).
  now rewrite G.
Qed.

Lemma formatRelativeTime_future_witness :
  @WidgetService.formatRelativeTime Example.runtime
     0 "1970-01-01T01:01:01.000Z" = "Just now".
Proof.
  apply (@formatRelativeTime_future Example.runtime 0 3661000);
    [reflexivity | lia].
Defined.

Definition digits : list ascii :=
  ["0"; "1"; "2"; "3"; "4"; "5"; "6"; "7"; "8"; "9"]%char.

Lemma digit_of_mod (n : Z) :
  exists d : ascii, In d digits /\ string_of_Z (n mod 10) = String d "".
Proof.
  assert (B : (0 <= n mod 10 < 10)%Z) by (apply Z.mod_pos_bound; lia).
  assert (C : (n mod 10 = 0 \/ n mod 10 = 1 \/ n mod 10 = 2 \/ n mod 10 = 3 \/
               n mod 10 = 4 \/ n mod 10 = 5 \/ n mod 10 = 6 \/ n mod 10 = 7 \/
               n mod 10 = 8 \/ n mod 10 = 9)%Z) by lia.
  unfold digits.
  repeat (destruct C as [-> | C];
          [eexists; split; [|reflexivity]; simpl; tauto|]).
  rewrite C. eexists; split; [|reflexivity]; simpl; tauto.
Qed.

(** C7: [formatTemperature] is a function of its arguments alone, takes
    celsius when no unit is given and prints one digit after the point:
    20 in celsius is "20.0°C" and 20 in fahrenheit is "68.0°F", the number
    printed for fahrenheit being [temp * 9 / 5 + 32]. *)
Theorem formatTemperature_examples `{Runtime} :
  WidgetService.formatTemperature 20 (Some WidgetService.celsius)
    = "20.0°C" /\
  WidgetService.formatTemperature 20 (Some WidgetService.fahrenheit)
    = "68.0°F" /\
  WidgetService.formatTemperature 20 None = "20.0°C" /\
  (forall temp : float,
     WidgetService.formatTemperature temp None
       = WidgetService.formatTemperature temp (Some WidgetService.celsius)) /\
  (forall temp : float,
     WidgetService.formatTemperature temp (Some WidgetService.celsius)
       = toFixed1 temp ++ "°C") /\
  (forall temp : float,
     WidgetService.formatTemperature temp (Some WidgetService.fahrenheit)
       = toFixed1 (temp * 9 / 5 + 32)%float ++ "°F") /\
  (forall n : Z, exists d : ascii,
     In d digits /\
     fixed1 n = string_of_Z (n / 10) ++ "." ++ String d "").
Proof.
  refine (conj _ (conj _ (conj _ (conj _ (conj _ (conj _ _)))))).
  - vm_compute. reflexivity.
  - vm_compute. reflexivity.
  - vm_compute. reflexivity.
  - reflexivity.
  - reflexivity.
  - reflexivity.
  - intros n. destruct (digit_of_mod n) as (d & Hin & Hd).
    exists d. split; [exact Hin|]. unfold fixed1. now rewrite Hd.
Qed.

(* ================================================================== *)
(** * Properties of the chat service *)
(* ================================================================== *)

(** C2: whatever the list held before, a successful [sendMessage] appends
    exactly two messages to it, the user message of the response and then
    its assistant message, and leaves a current session whose id is the
    [session_id] of the response. *)
Theorem sendMessage_appends_pair `{Runtime}
  (request : ChatRequest.t) (response : ChatResponse.t) (t1 t2 : Z)
  (a : App.t) :
  let a' := ChatService.sendMessage_tap request response t1 t2 a in
  ChatService.getCurrentMessages a' =
    (ChatService.getCurrentMessages a
       ++ [ChatResponse.user_message response;
           ChatResponse.assistant_message response])%list /\
  List.length (ChatService.getCurrentMessages a') =
    (List.length (ChatService.getCurrentMessages a) + 2)%nat /\
  App.messages a' = ChatService.getCurrentMessages a' /\
  option_map ChatSession.id (ChatService.getCurrentSession a') =
    Some (ChatResponse.session_id response) /\
  App.currentSession a' = ChatService.getCurrentSession a'.
Proof.
  cbv zeta. unfold ChatService.getCurrentMessages, ChatService.getCurrentSession.
  refine (conj _ (conj _ (conj _ (conj _ _)))); try reflexivity.
  cbn. rewrite length_app. reflexivity.
Qed.

(** C8: after a successful [sendMessage] the current session is a record
    made on the spot: its id is the one of the response, its user the one
    of the request, its title the constant "Current Chat" and its two time
    stamps are readings of the client's clock; nothing of the session held
    before remains. *)
Theorem sendMessage_synthesizes_session `{Runtime}
  (request : ChatRequest.t) (response : ChatResponse.t) (t1 t2 : Z)
  (a : App.t) :
  let a' := ChatService.sendMessage_tap request response t1 t2 a in
  ChatService.getCurrentSession a' =
    Some (ChatSession.mk (ChatResponse.session_id response)
                         (ChatRequest.user_id request)
                         (Some "Current Chat")
                         (Date_toISOString t1)
                         (Date_toISOString t2)) /\
  App.currentSession a' = ChatService.getCurrentSession a' /\
  (forall b : App.t,
     ChatService.getCurrentSession
       (ChatService.sendMessage_tap request response t1 t2 b)
     = ChatService.getCurrentSession a').
Proof. cbv zeta. refine (conj _ (conj _ _)); reflexivity. Qed.

(** C3: selecting a session and then selecting none leaves the message
    list empty, whatever it held and whatever happened in between;
    selecting a session makes it current and requests its messages, and
    the messages that come back replace the list as a whole; selecting
    none clears the list. *)
Theorem select_then_none_is_empty (s : ChatSession.t) (a : App.t) :
  ChatService.getCurrentMessages
    (ChatService.setCurrentSession None
       (ChatService.setCurrentSession (Some s) a)) = [] /\
  (forall b : App.t,
     ChatService.getCurrentMessages (ChatService.setCurrentSession None b)
       = [] /\
     App.messages (ChatService.setCurrentSession None b) = [] /\
     ChatService.getCurrentSession (ChatService.setCurrentSession None b)
       = None) /\
  (let a' := ChatService.setCurrentSession (Some s) a in
   ChatService.getCurrentSession a' = Some s /\
   App.requests a' =
     (App.requests a ++ [Http.GetSessionMessages (ChatSession.id s)])%list /\
   forall fetched : list Message.t,
     ChatService.getCurrentMessages
       (ChatService.getSessionMessages_tap fetched a') = fetched /\
     App.messages (ChatService.getSessionMessages_tap fetched a') = fetched).
Proof.
  refine (conj _ (conj _ _)).
  - reflexivity.
  - intros b. refine (conj _ (conj _ _)); reflexivity.
  - cbv zeta. refine (conj _ (conj _ _)); try reflexivity.
    intros fetched. split; reflexivity.
Qed.

(** A remark on C3: the request [setCurrentSession] sends is not called
    off by a later selection, so the messages of [s] still replace the
    list when they come back after none was selected. *)
Remark late_fetch_refills (s : ChatSession.t) (a : App.t)
  (fetched : list Message.t) :
  let a' :=
    ChatService.getSessionMessages_tap fetched
      (ChatService.setCurrentSession None
         (ChatService.setCurrentSession (Some s) a)) in
  ChatService.getCurrentMessages a' = fetched /\
  ChatService.getCurrentSession a' = None.
Proof. split; reflexivity. Qed.

(* ================================================================== *)
(** * Properties of the chat view *)
(* ================================================================== *)

Lemma hd_error_In {A : Type} (l : list A) (x : A) :
  hd_error l = Some x -> In x l.
Proof. destruct l; simpl; [discriminate | intros [= ->]; now left]. Qed.

(** C4: when the deletion of the session that is current succeeds, the
    handler leaves as current session either a session of the list that
    remains, whose id is not the deleted one, or no session at all. *)
Theorem delete_current_reselects (session : ChatSession.t) (a : App.t) :
  ChatComponent.is_current session a = true ->
  let a' := ChatComponent.deleteSession_next session a in
  App.sessions a' =
    filter (fun s => negb (ChatSession.id s =? ChatSession.id session)%Z)
           (App.sessions a) /\
  ChatService.getCurrentSession a' = App.currentSession a' /\
  match App.currentSession a' with
  | Some c =>
      In c (App.sessions a') /\ ChatSession.id c <> ChatSession.id session
  | None => App.sessions a' = []
  end.
Proof.
  intros Hcur a'.
  assert (E : App.currentSession a' =
              hd_error (filter (fun s => negb (ChatSession.id s
                                               =? ChatSession.id session)%Z)
                               (App.sessions a)) /\
              ChatService.getCurrentSession a' = App.currentSession a' /\
              App.sessions a' =
                filter (fun s => negb (ChatSession.id s
                                       =? ChatSession.id session)%Z)
                       (App.sessions a)).
  { subst a'. unfold ChatComponent.deleteSession_next.
    cbv zeta.
    replace (ChatComponent.is_current session
               (App.set_sessions _ a)) with true by (symmetry; exact Hcur).
    cbn [App.sessions App.set_sessions].
    destruct (filter _ (App.sessions a)) as [|s0 rest]; repeat split. }
  destruct E as (Ecur & Esub & Esess).
  refine (conj Esess (conj Esub _)).
  rewrite Ecur, Esess.
  destruct (filter _ (App.sessions a)) as [|s0 rest] eqn:F; [reflexivity|].
  cbn [hd_error]. split; [now left|].
  assert (Hin : In s0 (filter (fun s => negb (ChatSession.id s
                                               =? ChatSession.id session)%Z)
                              (App.sessions a)))
    by (rewrite F; now left).
  apply filter_In in Hin. destruct Hin as [_ Hne].
  apply negb_true_iff, Z.eqb_neq in Hne. exact Hne.
Qed.

Lemma delete_current_reselects_witness :
  ChatComponent.is_current Example.trip Example.showing_trip = true /\
  App.currentSession
    (ChatComponent.deleteSession_next Example.trip Example.showing_trip)
    = Some Example.work /\
  In Example.work
     (App.sessions
        (ChatComponent.deleteSession_next Example.trip Example.showing_trip)).
Proof.
  split; [reflexivity|]. split; [reflexivity|].
  exact (proj1 (proj2 (proj2
           (delete_current_reselects Example.trip Example.showing_trip
                                     eq_refl)))).
Defined.

Lemma refused_false (a : App.t) :
  ChatComponent.sendMessage_refused a = false ->
  trim (App.currentMessage a) <> "" /\ App.isLoading a = false.
Proof.
  unfold ChatComponent.sendMessage_refused.
  intros H. apply orb_false_iff in H. destruct H as [Ht Hl].
  split; [now apply String.eqb_neq | exact Hl].
Qed.

(** C5, as stated, fails: with " hi " in the input box, the send fails
    and the box then holds "hi", not the text that was composed. *)
Lemma failed_send_restores_other_text :
  let a := ChatComponent.input " hi " App.init in
  let request := ChatRequest.mk "hi" None "default_user" in
  ChatComponent.sendMessage_refused a = false /\
  App.requests (ChatComponent.sendMessage a) = [Http.PostMessage request] /\
  App.currentMessage
    (ChatComponent.sendMessage_fails request (ChatComponent.sendMessage a))
    = "hi" /\
  App.currentMessage
    (ChatComponent.sendMessage_fails request (ChatComponent.sendMessage a))
    <> App.currentMessage a.
Proof.
  cbv zeta.
  refine (conj _ (conj _ (conj _ _))); try reflexivity.
  vm_compute. discriminate.
Qed.

(** C5, amended: when [sendMessage] fails the text is not lost. The send
    path keeps the trimmed text of the input box, which is the message it
    posts, and clears the box; the error handler writes that trimmed text
    back and lowers the loading flag, so that sending again is not refused
    and posts the same message. *)
Theorem failed_send_restores_trimmed_text (a : App.t) :
  ChatComponent.sendMessage_refused a = false ->
  let message := trim (App.currentMessage a) in
  let request :=
    ChatRequest.mk message
                   (option_map ChatSession.id (App.currentSession a))
                   "default_user" in
  let sent := ChatComponent.sendMessage a in
  App.requests sent = (App.requests a ++ [Http.PostMessage request])%list /\
  App.currentMessage sent = "" /\
  App.isLoading sent = true /\
  forall b : App.t,
    let failed := ChatComponent.sendMessage_fails request b in
    App.currentMessage failed = message /\
    App.isLoading failed = false /\
    ChatComponent.sendMessage_refused failed = false /\
    App.requests (ChatComponent.sendMessage failed) =
      (App.requests b ++
       [Http.PostMessage
          (ChatRequest.mk message
                          (option_map ChatSession.id (App.currentSession b))
                          "default_user")])%list.
Proof.
  intros Hgo message request sent.
  destruct (refused_false a Hgo) as [Hne _].
  assert (Hsent : sent =
                  ChatService.sendMessage request
                    (App.set_isLoading true (App.set_currentMessage "" a))).
  { subst sent. unfold ChatComponent.sendMessage. now rewrite Hgo. }
  rewrite Hsent.
  refine (conj eq_refl (conj eq_refl (conj eq_refl _))).
  intros b failed.
  assert (Hmsg : App.currentMessage failed = message) by reflexivity.
  assert (Hload : App.isLoading failed = false) by reflexivity.
  assert (Hcur : App.currentSession failed = App.currentSession b)
    by reflexivity.
  assert (Hreq : App.requests failed = App.requests b) by reflexivity.
  assert (Hagain : ChatComponent.sendMessage_refused failed = false).
  { unfold ChatComponent.sendMessage_refused. rewrite Hmsg, Hload.
    unfold message. rewrite TrimFacts.trim_idempotent.
    apply orb_false_iff. split; [|reflexivity].
    now apply String.eqb_neq. }
  refine (conj Hmsg (conj Hload (conj Hagain _))).
  unfold ChatComponent.sendMessage. rewrite Hagain.
  cbn [ChatService.sendMessage App.issue App.requests App.currentSession
       App.set_isLoading App.set_currentMessage].
  rewrite Hmsg, Hcur, Hreq. unfold message.
  now rewrite TrimFacts.trim_idempotent.
Qed.

Lemma failed_send_restores_trimmed_text_witness :
  App.currentMessage
    (ChatComponent.sendMessage_fails
       (ChatRequest.mk (trim " hi ") None "default_user")
       (ChatComponent.sendMessage (ChatComponent.input " hi " App.init)))
  = trim " hi ".
Proof.
  exact (proj1 (proj2 (proj2 (proj2
           (failed_send_restores_trimmed_text
              (ChatComponent.input " hi " App.init) eq_refl)))
           (ChatComponent.sendMessage (ChatComponent.input " hi " App.init)))).
Defined.

(** C9: the view's [sendMessage] does nothing, sending no request and
    changing no state, when the input box is empty or holds white space
    only, and when the loading flag is up because an earlier send has not
    come back; a second call right after a first is therefore without
    effect. *)
Theorem sendMessage_blank_or_loading_is_noop (a : App.t) :
  blank (App.currentMessage a) \/ App.isLoading a = true ->
  ChatComponent.sendMessage a = a /\
  App.requests (ChatComponent.sendMessage a) = App.requests a /\
  (forall b : App.t,
     ChatComponent.sendMessage (ChatComponent.sendMessage b)
       = ChatComponent.sendMessage b).
Proof.
  intros Hno.
  assert (Hsame : ChatComponent.sendMessage a = a).
  { unfold ChatComponent.sendMessage, ChatComponent.sendMessage_refused.
    destruct Hno as [Hblank | Hload].
    - now rewrite (TrimFacts.trim_blank _ Hblank).
    - rewrite Hload, orb_true_r. reflexivity. }
  refine (conj Hsame (conj _ _)).
  - now rewrite Hsame.
  - intros b. unfold ChatComponent.sendMessage at 2 3.
    destruct (ChatComponent.sendMessage_refused b) eqn:R.
    + unfold ChatComponent.sendMessage. now rewrite R.
    + unfold ChatComponent.sendMessage at 1.
      unfold ChatComponent.sendMessage_refused.
      cbn [ChatService.sendMessage App.issue App.isLoading App.set_isLoading].
      now rewrite orb_true_r.
Qed.

Lemma sendMessage_blank_or_loading_is_noop_witness :
  ChatComponent.sendMessage (ChatComponent.input "  " App.init)
    = ChatComponent.input "  " App.init /\
  ChatComponent.sendMessage
    (App.set_isLoading true (ChatComponent.input "hi" App.init))
    = App.set_isLoading true (ChatComponent.input "hi" App.init).
Proof.
  split.
  - refine (proj1 (sendMessage_blank_or_loading_is_noop
                     (ChatComponent.input "  " App.init) (or_introl _))).
    exact (blank_app [" "%char] [" "%char] (or_intror (or_intror (or_intror
             (or_intror (or_intror (or_introl eq_refl))))))
             (blank_app [" "%char] [] (or_intror (or_intror (or_intror
                (or_intror (or_intror (or_introl eq_refl)))))) blank_nil)).
  - exact (proj1 (sendMessage_blank_or_loading_is_noop
                    (App.set_isLoading true (ChatComponent.input "hi" App.init))
                    (or_intror eq_refl))).
Defined.

(* ================================================================== *)
(** * Further properties of the widget helpers *)
(* ================================================================== *)

Import JsMore.

Lemma append_assoc (a b c : string) : (a ++ b) ++ c = a ++ (b ++ c).
Proof. induction a as [|x a IH]; simpl; [reflexivity | now rewrite IH]. Qed.

(** [toFixed] with one digit is the [toFixed1] the temperature uses. *)
Lemma toFixed_one `{Runtime} (x : float) : toFixed 1 x = toFixed1 x.
Proof.
  assert (F : forall n, fixed 1 n = fixed1 n).
  { intros n. unfold fixed, fixed1.
    change (10 ^ Z.of_nat 1)%Z with 10%Z.
    destruct (digit_of_mod n) as (d & _ & ->). reflexivity. }
  assert (S : forall m e, scaled 1 m e = tenths m e).
  { intros m e. unfold scaled, tenths.
    change (10 ^ Z.of_nat 1)%Z with 10%Z. cbv zeta.
    f_equal; lia. }
  unfold toFixed, toFixed1.
  destruct (Prim2SF x); try reflexivity.
  now rewrite F, S.
Qed.

Definition is_digit (d : ascii) : bool := existsb (Ascii.eqb d) digits.

Definition two_digits (j : nat) : bool :=
  match pad_zeros 2 (string_of_Z (Z.of_nat j)) with
  | String d1 (String d2 EmptyString) => is_digit d1 && is_digit d2
  | _ => false
  end.

Lemma is_digit_In (d : ascii) : is_digit d = true -> In d digits.
Proof.
  unfold is_digit. intros E. apply existsb_exists in E.
  destruct E as (x & Hin & Heq). apply Ascii.eqb_eq in Heq. now subst.
Qed.

Lemma hundredths (n : Z) :
  exists d1 d2 : ascii,
    In d1 digits /\ In d2 digits /\
    pad_zeros 2 (string_of_Z (n mod 100)) = String d1 (String d2 "").
Proof.
  assert (B : (0 <= n mod 100 < 100)%Z) by (apply Z.mod_pos_bound; lia).
  assert (A : forallb two_digits (seq 0 100) = true) by (vm_compute; reflexivity).
  rewrite forallb_forall in A.
  specialize (A (Z.to_nat (n mod 100))).
  assert (I : In (Z.to_nat (n mod 100)) (seq 0 100)) by (apply in_seq; lia).
  specialize (A I). unfold two_digits in A.
  rewrite Z2Nat.id in A by lia.
  destruct (pad_zeros 2 (string_of_Z (n mod 100))) as [|d1 [|d2 [|]]];
    try discriminate.
  apply andb_true_iff in A. destruct A as [A1 A2].
  exists d1, d2. auto using is_digit_In.
Qed.

(** X1: for a number [toFixed] prints itself, [formatPercentage] gives a
    sign, the whole part, a point, exactly two digits and "%"; the sign is
    "+" when [value >= 0] holds, minus zero included, and "-" otherwise. *)
Theorem formatPercentage_shape `{Runtime} (value : float) :
  in_fixed_range value = true ->
  exists (sign d1 d2 : ascii) (whole : string),
    (sign = "+"%char /\ PrimFloat.leb 0 value = true \/
     sign = "-"%char /\ PrimFloat.leb 0 value = false) /\
    In d1 digits /\ In d2 digits /\
    WidgetApi.formatPercentage value =
      String sign (whole ++ "." ++ String d1 (String d2 "%")).
Proof.
  unfold in_fixed_range, WidgetApi.formatPercentage, toFixed.
  rewrite leb_spec.
  change (Prim2SF 0) with (S754_zero false).
  destruct (Prim2SF value) as [z| | |s m e]; try discriminate.
  - intros _. exists "+"%char, "0"%char, "0"%char, "0".
    unfold digits. simpl. intuition.
  - intros R. apply negb_true_iff in R. rewrite R.
    destruct (hundredths (scaled 2 m e)) as (d1 & d2 & H1 & H2 & E).
    exists (if s then "-" else "+")%char, d1, d2,
           (string_of_Z (scaled 2 m e / 100)).
    split; [destruct s; simpl; auto|].
    split; [exact H1|]. split; [exact H2|].
    unfold fixed. change (10 ^ Z.of_nat 2)%Z with 100%Z. rewrite E.
    destruct s; simpl; rewrite !append_assoc; reflexivity.
Qed.

Lemma formatPercentage_shape_witness :
  exists (sign d1 d2 : ascii) (whole : string),
    (sign = "+"%char /\ PrimFloat.leb 0 (-1.25) = true \/
     sign = "-"%char /\ PrimFloat.leb 0 (-1.25) = false) /\
    In d1 digits /\ In d2 digits /\
    @WidgetApi.formatPercentage Example.runtime (-1.25) =
      String sign (whole ++ "." ++ String d1 (String d2 "%")).
Proof.
  apply (@formatPercentage_shape Example.runtime (-1.25)%float).
  vm_compute. reflexivity.
Defined.

(** X2: past the first minute the number [formatRelativeTime] prints is
    never zero and never reaches the next unit: 1 to 59 minutes, 1 to 23
    hours, or at least one day. *)
Theorem formatRelativeTime_counts `{Runtime}
  (now date : Z) (timestamp : string) :
  Date_parse timestamp = Some date ->
  (60 * 1000 <= now - date)%Z ->
  exists (n : Z) (unit : string),
    WidgetService.formatRelativeTime now timestamp = string_of_Z n ++ unit /\
    (unit = "m ago" /\ (1 <= n <= 59)%Z \/
     unit = "h ago" /\ (1 <= n <= 23)%Z \/
     unit = "d ago" /\ (1 <= n)%Z).
Proof.
  intros Hp Hold.
  rewrite (formatRelativeTime_eq now date timestamp Hp). cbv zeta.
  set (elapsed := (now - date)%Z) in *.
  assert (G : (elapsed <? 60000)%Z = false) by (apply Z.ltb_ge; lia).
  rewrite G.
  destruct (Z.ltb_spec elapsed 3600000) as [Hm|Hm].
  - exists (elapsed / 60000)%Z, "m ago". split; [reflexivity|]. left.
    split; [reflexivity|].
    split; [apply Z.div_le_lower_bound; lia|].
    assert (elapsed / 60000 < 60)%Z by (apply Z.div_lt_upper_bound; lia). lia.
  - destruct (Z.ltb_spec elapsed 86400000) as [Hh|Hh].
    + exists (elapsed / 3600000)%Z, "h ago". split; [reflexivity|].
      right; left. split; [reflexivity|].
      split; [apply Z.div_le_lower_bound; lia|].
      assert (elapsed / 3600000 < 24)%Z by (apply Z.div_lt_upper_bound; lia).
      lia.
    + exists (elapsed / 86400000)%Z, "d ago". split; [reflexivity|].
      right; right. split; [reflexivity|].
      apply Z.div_le_lower_bound; lia.
Qed.

Lemma formatRelativeTime_counts_witness :
  exists (n : Z) (unit : string),
    @WidgetService.formatRelativeTime Example.runtime
       (3661000 + 7200000) "1970-01-01T01:01:01.000Z" = string_of_Z n ++ unit /\
    (unit = "m ago" /\ (1 <= n <= 59)%Z \/
     unit = "h ago" /\ (1 <= n <= 23)%Z \/
     unit = "d ago" /\ (1 <= n)%Z).
Proof.
  apply (@formatRelativeTime_counts Example.runtime
           (3661000 + 7200000) 3661000 "1970-01-01T01:01:01.000Z");
    [reflexivity | lia].
Defined.

(** X3: the query of [getWidgetConfigs] carries each filter under its own
    name: [user_id] reads back as the user and [widget_type] as the type,
    each absent when its argument is missing or the empty string, and no
    parameter is sent twice; [clearWidgetCache] does the same with its
    one filter. *)
Theorem widget_filters_read_back (userId widgetType : option string) :
  let params :=
    WidgetHttp.params_of (WidgetApi.getWidgetConfigs userId widgetType) in
  let cleared :=
    WidgetHttp.params_of (WidgetApi.clearWidgetCache widgetType) in
  WidgetHttp.assoc "user_id" params = WidgetApi.given userId /\
  WidgetHttp.assoc "widget_type" params = WidgetApi.given widgetType /\
  NoDup (map fst params) /\
  WidgetHttp.assoc "widget_type" cleared = WidgetApi.given widgetType /\
  WidgetHttp.assoc "user_id" cleared = None.
Proof.
  unfold WidgetApi.getWidgetConfigs, WidgetApi.clearWidgetCache,
    WidgetApi.add_param.
  destruct (WidgetApi.given userId), (WidgetApi.given widgetType);
    cbn; repeat split; try reflexivity;
    repeat constructor; simpl; intuition discriminate.
Qed.

(** X4: in the data requests the required argument always reads back under
    its key, and the optional one ([category], [location]) reads back when
    it is given and not empty and is [undefined] otherwise. *)
Theorem data_request_fields_read_back
  (query timezone : string) (category location : option string) :
  let news := WidgetApi.createNewsWidgetData query category in
  let clock := WidgetApi.createClockWidgetData timezone location in
  lookup "query" (WidgetDataRequest.params news) = Str query /\
  lookup "category" (WidgetDataRequest.params news) =
    match WidgetApi.given category with
    | Some c => Str c
    | None => Undefined
    end /\
  lookup "timezone" (WidgetDataRequest.params clock) = Str timezone /\
  lookup "location" (WidgetDataRequest.params clock) =
    match WidgetApi.given location with
    | Some l => Str l
    | None => Undefined
    end.
Proof.
  unfold WidgetApi.createNewsWidgetData, WidgetApi.createClockWidgetData,
    WidgetApi.add_field.
  destruct (WidgetApi.given category), (WidgetApi.given location);
    repeat split; reflexivity.
Qed.

Lemma extract_returns_data_shape (w : Widget.t) :
  (Widget.type w = custom -> WidgetComponent.getWidgetData w = None) /\
  (Widget.type w <> custom ->
   WidgetComponent.getWidgetData w = or_null (Widget.data w)).
Proof.
  unfold WidgetComponent.getWidgetData.
  destruct (Widget.type w); split; intros; try reflexivity; congruence.
Qed.

Lemma is_true_spec (v : value) : is_true v = true <-> v = Boolean true.
Proof.
  split; [|now intros ->].
  destruct v as [| |[|]| | | |]; simpl; congruence.
Qed.

Lemma mock_of_true (data : value) :
  is_true (mock_of data) = true <->
  exists fields, data = Object fields /\ lookup "mock" fields = Boolean true.
Proof.
  split.
  - destruct data; simpl; try discriminate.
    intros E. apply is_true_spec in E. eauto.
  - intros (fields & -> & E). simpl. now rewrite E.
Qed.

(** X5: [isMockData] holds exactly when the widget's type has an
    extraction helper and its data is an object whose [mock] is [true]; a
    widget of type custom is never flagged, whatever its data says. *)
Theorem isMockData_iff (v : WidgetView.t) :
  WidgetView.isMockData v = true <->
  Widget.type (WidgetView.widget v) <> custom /\
  exists fields,
    Widget.data (WidgetView.widget v) = Object fields /\
    lookup "mock" fields = Boolean true.
Proof.
  unfold WidgetView.isMockData.
  destruct (extract_returns_data_shape (WidgetView.widget v)) as [Hc Ho].
  split.
  - intros E.
    assert (Hty : Widget.type (WidgetView.widget v) <> custom).
    { intros T. rewrite (Hc T) in E. discriminate. }
    split; [exact Hty|].
    rewrite (Ho Hty) in E. unfold or_null in E.
    destruct (truthy (Widget.data (WidgetView.widget v))); [|discriminate].
    now apply mock_of_true.
  - intros (Hty & fields & Hd & Hm).
    rewrite (Ho Hty), Hd. simpl. now rewrite Hm.
Qed.

Lemma widget_step_facts (v : WidgetView.t) (e : WidgetView.event) :
  let v' := WidgetView.step v e in
  WidgetView.widget v' = WidgetView.widget v /\
  ((WidgetView.isLoading v = true -> WidgetView.error v = None) ->
   WidgetView.isLoading v' = true -> WidgetView.error v' = None) /\
  WidgetView.requests v' =
    (WidgetView.requests v ++
     if WidgetView.is_refresh e
     then [WidgetHttp.PostRefresh (Widget.id (WidgetView.widget v)) true]
     else [])%list.
Proof.
  destruct e as [action| |]; cbn [WidgetView.step WidgetView.is_refresh].
  - unfold WidgetView.onAction.
    destruct (String.eqb (WidgetAction.type action) "refresh").
    + cbn. auto.
    + rewrite app_nil_r.
      destruct (String.eqb (WidgetAction.type action) "configure"); [auto|].
      destruct (String.eqb (WidgetAction.type action) "fullscreen"); auto.
  - cbn. rewrite app_nil_r. repeat split. discriminate.
  - cbn. rewrite app_nil_r. repeat split. discriminate.
Qed.

Lemma widget_run_facts (events : list WidgetView.event) (v : WidgetView.t) :
  let v' := WidgetView.run v events in
  WidgetView.widget v' = WidgetView.widget v /\
  ((WidgetView.isLoading v = true -> WidgetView.error v = None) ->
   WidgetView.isLoading v' = true -> WidgetView.error v' = None) /\
  WidgetView.requests v' =
    (WidgetView.requests v ++
     repeat (WidgetHttp.PostRefresh (Widget.id (WidgetView.widget v)) true)
            (List.length (filter WidgetView.is_refresh events)))%list.
Proof.
  revert v. induction events as [|e rest IH]; intros v; cbn zeta.
  - cbn. rewrite app_nil_r. auto.
  - change (WidgetView.run v (e :: rest))
      with (WidgetView.run (WidgetView.step v e) rest).
    destruct (IH (WidgetView.step v e)) as (Iw & Ie & Ir).
    destruct (widget_step_facts v e) as (Sw & Se & Sr).
    cbv zeta in Iw, Ie, Ir, Sw, Se, Sr.
    split; [congruence|]. split; [auto|].
    rewrite Ir, Sr, Sw. cbn [filter].
    destruct (WidgetView.is_refresh e); cbn [List.length repeat];
      rewrite <- app_assoc; reflexivity.
Qed.

(** X6: whatever the user does with a widget and whatever comes back, the
    component never changes the widget it shows, never shows the spinner
    and an error together, and its requests are forced refreshes of this
    widget, one for each refresh action: an action of another type sends
    nothing, and a refresh is sent even while one is loading. *)
Theorem widget_view_run (w : Widget.t) (events : list WidgetView.event) :
  let v := WidgetView.run (WidgetView.init w) events in
  WidgetView.widget v = w /\
  (WidgetView.isLoading v = true -> WidgetView.error v = None) /\
  WidgetView.requests v =
    repeat (WidgetHttp.PostRefresh (Widget.id w) true)
           (List.length (filter WidgetView.is_refresh events)).
Proof.
  destruct (widget_run_facts events (WidgetView.init w)) as (Hw & He & Hr).
  cbv zeta in *. refine (conj Hw (conj _ Hr)).
  apply He. discriminate.
Qed.

(** X7: [getMaxArticles] never gives a falsy value: a configuration
    without [maxArticles], or with 0, [null], [false] or an empty string
    for it, gives 3, and any other gives the configured value. *)
Theorem getMaxArticles_never_falsy (v : WidgetView.t) :
  let configured :=
    lookup "maxArticles"
           (WidgetConfig.extra (Widget.config (WidgetView.widget v))) in
  truthy (WidgetView.getMaxArticles v) = true /\
  WidgetView.getMaxArticles v =
    (if truthy configured then configured else Number 3).
Proof.
  cbv zeta. unfold WidgetView.getMaxArticles.
  destruct (truthy (lookup _ _)) eqn:T; split; auto.
Qed.

(* ================================================================== *)
(** * Further properties of the chat view *)
(* ================================================================== *)

Lemma deleteSession_next_sessions (session : ChatSession.t) (a : App.t) :
  App.sessions (ChatComponent.deleteSession_next session a) =
    filter (fun s => negb (ChatSession.id s =? ChatSession.id session)%Z)
           (App.sessions a).
Proof.
  unfold ChatComponent.deleteSession_next. cbv zeta.
  destruct (ChatComponent.is_current session _).
  - cbn [App.sessions App.set_sessions].
    destruct (hd_error _); reflexivity.
  - reflexivity.
Qed.

(** X8: when the deletion of a session that is not the current one
    succeeds, the handler leaves the current session and the messages as
    they are and sends no request; only the list of sessions and the
    snack bar change. *)
Theorem delete_other_keeps_current (session : ChatSession.t) (a : App.t) :
  ChatComponent.is_current session a = false ->
  let a' := ChatComponent.deleteSession_next session a in
  App.currentSession a' = App.currentSession a /\
  ChatService.getCurrentSession a' = ChatService.getCurrentSession a /\
  App.messages a' = App.messages a /\
  ChatService.getCurrentMessages a' = ChatService.getCurrentMessages a /\
  App.requests a' = App.requests a /\
  App.currentMessage a' = App.currentMessage a /\
  App.isLoading a' = App.isLoading a.
Proof.
  intros Hother a'. subst a'. unfold ChatComponent.deleteSession_next.
  cbv zeta.
  replace (ChatComponent.is_current session (App.set_sessions _ a))
    with false by (symmetry; exact Hother).
  repeat split.
Qed.

Lemma delete_other_keeps_current_witness :
  App.currentSession
    (ChatComponent.deleteSession_next Example.work Example.showing_trip)
    = Some Example.trip /\
  App.requests
    (ChatComponent.deleteSession_next Example.work Example.showing_trip) = [].
Proof.
  pose proof (delete_other_keeps_current Example.work Example.showing_trip
                eq_refl) as H.
  cbv zeta in H.
  exact (conj (proj1 H) (proj1 (proj2 (proj2 (proj2 (proj2 H)))))).
Defined.

(** X9: after a successful deletion the list holds exactly the sessions
    it held whose id is not the deleted one, every copy of the deleted id
    being gone, and a second deletion of the same session changes the list
    no more. *)
Theorem delete_removes_every_copy (session : ChatSession.t) (a : App.t) :
  let a' := ChatComponent.deleteSession_next session a in
  (forall s,
     In s (App.sessions a') <->
     In s (App.sessions a) /\ ChatSession.id s <> ChatSession.id session) /\
  (List.length (App.sessions a') <= List.length (App.sessions a))%nat /\
  App.sessions (ChatComponent.deleteSession_next session a') =
    App.sessions a'.
Proof.
  cbv zeta. rewrite !deleteSession_next_sessions.
  refine (conj _ (conj _ _)).
  - intros s. rewrite filter_In, negb_true_iff, Z.eqb_neq. tauto.
  - apply filter_length_le.
  - set (keep := fun s => negb (ChatSession.id s =? ChatSession.id session)%Z).
    induction (App.sessions a) as [|s l IH]; [reflexivity|].
    cbn [filter]. destruct (keep s) eqn:K; [|exact IH].
    cbn [filter]. rewrite K. now f_equal.
Qed.

(** X10: when the sessions arrive, the list is replaced by them; a current
    session is kept as it is, in the new list or not, and nothing is
    requested; without a current session the first session of a list that
    is not empty becomes current and its messages are requested. *)
Theorem loadSessions_next_selects (sessions : list ChatSession.t)
  (a : App.t) :
  let a' := ChatComponent.loadSessions_next sessions a in
  App.sessions a' = sessions /\
  App.currentSession a' =
    match App.currentSession a with
    | Some c => Some c
    | None => hd_error sessions
    end /\
  App.requests a' =
    (App.requests a ++
     match App.currentSession a, sessions with
     | None, s0 :: _ => [Http.GetSessionMessages (ChatSession.id s0)]
     | _, _ => []
     end)%list /\
  ChatService.getCurrentMessages a' = ChatService.getCurrentMessages a.
Proof.
  cbv zeta. unfold ChatComponent.loadSessions_next. cbv zeta.
  cbn [App.currentSession App.set_sessions].
  destruct sessions as [|s0 rest], (App.currentSession a) as [c|] eqn:C;
    cbn; rewrite ?C, ?app_nil_r; repeat split; reflexivity.
Qed.

(** X11: when a new session has been created it is put first in the list,
    before all the sessions that were there, it becomes the current
    session and its messages are requested; until they arrive the view
    goes on showing the messages it showed. *)
Theorem createNewSession_succeeds_selects (session : ChatSession.t)
  (a : App.t) :
  let a' := ChatComponent.createNewSession_succeeds session a in
  App.sessions a' = session :: App.sessions a /\
  App.currentSession a' = Some session /\
  ChatService.getCurrentSession a' = Some session /\
  App.requests a' =
    (App.requests a ++ [Http.GetSessionMessages (ChatSession.id session)])%list /\
  App.messages a' = App.messages a /\
  ChatService.getCurrentMessages a' = ChatService.getCurrentMessages a.
Proof. cbv zeta. repeat split. Qed.

(** X12: a send that succeeds posts one request, which carries the trimmed
    text and the id of the current session, or no id when there is none;
    the answer adds its two messages to those the service holds, makes the
    session of the answer current, lowers the loading flag and leaves the
    input box empty, so that nothing more is sent until the user types. *)
Theorem send_then_success `{Runtime} (a : App.t)
  (response : ChatResponse.t) (t1 t2 : Z) :
  ChatComponent.sendMessage_refused a = false ->
  let request :=
    ChatRequest.mk (trim (App.currentMessage a))
                   (option_map ChatSession.id (App.currentSession a))
                   "default_user" in
  let sent := ChatComponent.sendMessage a in
  let done :=
    ChatComponent.sendMessage_succeeds request response t1 t2 sent in
  App.requests sent = (App.requests a ++ [Http.PostMessage request])%list /\
  App.requests done = App.requests sent /\
  App.messages done =
    (ChatService.getCurrentMessages a
       ++ [ChatResponse.user_message response;
           ChatResponse.assistant_message response])%list /\
  option_map ChatSession.id (App.currentSession done) =
    Some (ChatResponse.session_id response) /\
  App.isLoading done = false /\
  App.currentMessage done = "" /\
  ChatComponent.sendMessage done = done.
Proof.
  intros Hgo request sent done.
  assert (Hsent : sent =
                  ChatService.sendMessage request
                    (App.set_isLoading true (App.set_currentMessage "" a))).
  { subst sent. unfold ChatComponent.sendMessage. now rewrite Hgo. }
  subst done. rewrite Hsent.
  refine (conj eq_refl (conj eq_refl (conj eq_refl (conj eq_refl
            (conj eq_refl (conj eq_refl _)))))).
  unfold ChatComponent.sendMessage at 1.
  unfold ChatComponent.sendMessage_refused.
  cbn [ChatComponent.sendMessage_succeeds ChatComponent.sendMessage_next
       ChatService.sendMessage_tap ChatService.sendMessage
       App.next_currentSession App.next_messages App.issue
       App.set_isLoading App.set_currentMessage App.set_messages
       App.set_messagesSubject App.set_currentSession
       App.set_currentSessionSubject App.currentMessage App.isLoading].
  reflexivity.
Qed.

Lemma send_then_success_witness :
  let a := ChatComponent.input " hi " Example.showing_trip in
  let request := ChatRequest.mk (trim " hi ") (Some 7%Z) "default_user" in
  let response := ChatResponse.mk Example.question Example.answer 7 None in
  App.messages
    (@ChatComponent.sendMessage_succeeds Example.runtime request response 0 0
       (ChatComponent.sendMessage a))
  = [Example.question; Example.answer; Example.question; Example.answer].
Proof.
  exact (proj1 (proj2 (proj2
           (@send_then_success Example.runtime
              (ChatComponent.input " hi " Example.showing_trip)
              (ChatResponse.mk Example.question Example.answer 7 None) 0%Z 0%Z
              eq_refl)))).
Defined.

(** X13: when the deletion of the current session succeeds and a session
    remains, the messages of the first remaining session are requested and
    the view goes on showing the old messages until they arrive; when none
    remains the list of messages is emptied and nothing is requested. *)
Theorem delete_current_refreshes_messages (session : ChatSession.t)
  (a : App.t) :
  ChatComponent.is_current session a = true ->
  let a' := ChatComponent.deleteSession_next session a in
  match App.sessions a' with
  | next :: _ =>
      App.requests a' =
        (App.requests a ++ [Http.GetSessionMessages (ChatSession.id next)])%list /\
      App.messages a' = App.messages a /\
      ChatService.getCurrentMessages a' = ChatService.getCurrentMessages a
  | [] =>
      App.requests a' = App.requests a /\
      App.messages a' = [] /\
      ChatService.getCurrentMessages a' = []
  end.
Proof.
  intros Hcur a'. subst a'. rewrite deleteSession_next_sessions.
  unfold ChatComponent.deleteSession_next. cbv zeta.
  replace (ChatComponent.is_current session (App.set_sessions _ a))
    with true by (symmetry; exact Hcur).
  cbn [App.sessions App.set_sessions].
  destruct (filter _ (App.sessions a)) as [|next rest]; repeat split.
Qed.

Lemma delete_current_refreshes_messages_witness :
  App.requests
    (ChatComponent.deleteSession_next Example.trip Example.showing_trip)
    = [Http.GetSessionMessages 8] /\
  App.messages
    (ChatComponent.deleteSession_next Example.trip Example.showing_trip)
    = [Example.question; Example.answer].
Proof.
  pose proof (delete_current_refreshes_messages Example.trip
                Example.showing_trip eq_refl) as H.
  cbv zeta in H.
  exact (conj (proj1 H) (proj1 (proj2 H))).
Defined.

Section Skipped.
Variable pats : list (list ascii).
Variable P : list ascii -> Prop.
Hypothesis P_nil : P [].
Hypothesis P_app : forall p r, In p pats -> P r -> P (p ++ r)%list.

(** What [skip] removes is made of patterns. *)
Lemma skip_removes (fuel : nat) (l : list ascii) :
  exists w, P w /\ l = (w ++ skip pats fuel l)%list.
Proof.
  revert l. induction fuel as [|n IH]; intros l; cbn [skip].
  - exists []. auto.
  - destruct (strip_any pats l) as [r|] eqn:E; [|exists []; auto].
    destruct (TrimFacts.strip_any_some pats l r E) as (p & Hin & ->).
    destruct (IH r) as (w & Hw & Hr).
    exists (p ++ w)%list. split; [auto|].
    rewrite <- app_assoc. now f_equal.
Qed.

Lemma skip_to_nil (fuel : nat) (l : list ascii) :
  skip pats fuel l = [] -> P l.
Proof.
  intros E. destruct (skip_removes fuel l) as (w & Hw & Hl).
  rewrite E, app_nil_r in Hl. now subst.
Qed.
End Skipped.

Lemma blank_bytes_app (u v : list ascii) :
  blank_bytes u -> blank_bytes v -> blank_bytes (u ++ v).
Proof.
  induction 1 as [|p l Hp Hl IH]; intros Hv; [exact Hv|].
  rewrite <- app_assoc. apply blank_app; auto.
Qed.

Lemma blank_bytes_rev_app (p r : list ascii) :
  In p whiteSpace_rev -> blank_bytes (rev r) -> blank_bytes (rev (p ++ r)).
Proof.
  intros Hin Hr.
  change whiteSpace_rev with (map (@rev ascii) whiteSpace) in Hin.
  apply in_map_iff in Hin. destruct Hin as (p0 & <- & Hp0).
  rewrite rev_app_distr, rev_involutive.
  apply blank_bytes_app; [exact Hr|].
  rewrite <- (app_nil_r p0). apply blank_app; [exact Hp0 | constructor].
Qed.

(** Only a blank string trims to the empty string. *)
Lemma trim_empty_blank (s : string) : trim s = "" -> blank s.
Proof.
  unfold trim, blank. intros E.
  set (l := list_ascii_of_string s) in *.
  assert (E' : trimEnd_bytes (trimStart_bytes l) = []).
  { destruct (trimEnd_bytes (trimStart_bytes l)); [reflexivity|discriminate]. }
  unfold trimEnd_bytes in E'.
  assert (E'' : skip_all whiteSpace_rev (rev (trimStart_bytes l)) = []).
  { destruct (skip_all whiteSpace_rev (rev (trimStart_bytes l))) as [|x r];
      [reflexivity|].
    simpl in E'. symmetry in E'. now apply app_cons_not_nil in E'. }
  pose proof (skip_to_nil whiteSpace_rev (fun l => blank_bytes (rev l))
                blank_nil blank_bytes_rev_app _ _ E'') as Ht.
  cbv beta in Ht. rewrite rev_involutive in Ht.
  destruct (skip_removes whiteSpace blank_bytes blank_nil blank_app
              (List.length l) l) as (w & Hw & Hl).
  rewrite Hl. now apply blank_bytes_app.
Qed.

(** X14: the view's [sendMessage] posts a message exactly when the input
    box holds something other than white space and no earlier send waits
    for its answer (the loading flag is down); the request is then added
    after those already sent. *)
Theorem sendMessage_posts_iff (a : App.t) :
  (exists request,
     App.requests (ChatComponent.sendMessage a) =
       (App.requests a ++ [Http.PostMessage request])%list) <->
  ~ blank (App.currentMessage a) /\ App.isLoading a = false.
Proof.
  unfold ChatComponent.sendMessage.
  destruct (ChatComponent.sendMessage_refused a) eqn:R.
  - split.
    + intros (request & E). exfalso.
      apply (f_equal (@List.length _)) in E.
      rewrite length_app in E. simpl in E. lia.
    + intros (Hnb & Hl). exfalso.
      unfold ChatComponent.sendMessage_refused in R.
      rewrite Hl, orb_false_r in R. apply String.eqb_eq in R.
      exact (Hnb (trim_empty_blank _ R)).
  - destruct (refused_false a R) as [Hne Hl]. split.
    + intros _. split; [|exact Hl].
      intros Hb. exact (Hne (TrimFacts.trim_blank _ Hb)).
    + intros _. eexists. reflexivity.
Qed.

(* ================================================================== *)
(** * Invariants of the chat view as a machine *)
(* ================================================================== *)

Module MachineFacts.
Import ChatEvents.

(** The three shapes the effect of a method or handler has on the
    loading flag and on the requests. *)
Definition quiet (a a' : App.t) : Prop :=
  App.isLoading a' = App.isLoading a /\
  exists l,
    App.requests a' = (App.requests a ++ l)%list /\
    filter is_post l = [] /\ Forall well_formed l.

Definition sends (a a' : App.t) : Prop :=
  App.isLoading a = false /\ App.isLoading a' = true /\
  exists r,
    App.requests a' = (App.requests a ++ [Http.PostMessage r])%list /\
    well_formed (Http.PostMessage r).

Definition settles (a a' : App.t) : Prop :=
  App.isLoading a' = false /\ App.requests a' = App.requests a.

Lemma quiet_refl (a : App.t) : quiet a a.
Proof.
  split; [reflexivity|]. exists []. rewrite app_nil_r. repeat split.
  constructor.
Qed.

Lemma quiet_one (a a' : App.t) (c : Http.call) :
  App.isLoading a' = App.isLoading a ->
  App.requests a' = (App.requests a ++ [c])%list ->
  is_post c = false -> well_formed c -> quiet a a'.
Proof.
  intros Hl Hr Hp Hw. split; [exact Hl|]. exists [c].
  split; [exact Hr|]. split; [simpl; now rewrite Hp|].
  now repeat constructor.
Qed.

Lemma quiet_same (a a' : App.t) :
  App.isLoading a' = App.isLoading a ->
  App.requests a' = App.requests a -> quiet a a'.
Proof.
  intros Hl Hr. split; [exact Hl|]. exists []. rewrite app_nil_r.
  repeat split; [exact Hr | constructor].
Qed.

Lemma sendMessage_effect (a : App.t) :
  quiet a (ChatComponent.sendMessage a) \/ sends a (ChatComponent.sendMessage a).
Proof.
  unfold ChatComponent.sendMessage.
  destruct (ChatComponent.sendMessage_refused a) eqn:R.
  - left. apply quiet_refl.
  - right. destruct (refused_false a R) as [Hne Hl].
    split; [exact Hl|]. split; [reflexivity|].
    eexists. split; [reflexivity|].
    cbn. repeat split; [exact Hne | apply TrimFacts.trim_idempotent].
Qed.

Lemma act_effect (u : action) (a : App.t) :
  quiet a (act u a) \/ sends a (act u a).
Proof.
  destruct u as [text| |event|session|session confirmed|prompted|];
    cbn [act].
  - left. now apply quiet_same.
  - apply sendMessage_effect.
  - unfold onKeyPress.
    destruct (_ && _); cbn [fst];
      [apply sendMessage_effect | left; apply quiet_refl].
  - left. eapply quiet_one; try reflexivity; try exact I.
  - left. unfold ChatComponent.deleteSession. destruct confirmed.
    + eapply quiet_one; try reflexivity; try exact I.
    + apply quiet_refl.
  - left. unfold ChatComponent.createNewSession.
    destruct prompted as [t|]; [|apply quiet_refl].
    destruct (String.eqb_spec t ""); [apply quiet_refl|].
    eapply quiet_one; try reflexivity.
    cbn. split; [reflexivity|]. eauto.
  - left. now apply quiet_same.
Qed.

Lemma setCurrentSession_effect (s : option ChatSession.t) (a : App.t) :
  quiet a (ChatComponent.setCurrentSession s a).
Proof.
  destruct s as [s|].
  - eapply quiet_one; try reflexivity; try exact I.
  - now apply quiet_same.
Qed.

Lemma quiet_trans (a b c : App.t) : quiet a b -> quiet b c -> quiet a c.
Proof.
  intros (L1 & l1 & R1 & P1 & W1) (L2 & l2 & R2 & P2 & W2).
  split; [congruence|]. exists (l1 ++ l2)%list.
  split; [now rewrite R2, R1, app_assoc|].
  split; [now rewrite filter_app, P1, P2 | now apply Forall_app].
Qed.

Section Handlers.
Context `{Js.Runtime}.

Lemma handle_effect (c : Http.call) (o : outcome) (a a' : App.t) :
  handle c o a = Some a' ->
  if is_post c then settles a a' else quiet a a'.
Proof.
  destruct c as [userId|userId title|sessionId|request|sessionId],
           o as [|l|s|l|response t1 t2|s];
    cbn [handle is_post]; try discriminate; intros E.
  - injection E as <-. now apply quiet_same.
  - injection E as <-. unfold ChatComponent.loadSessions_next. cbv zeta.
    destruct l as [|s0 rest]; [now apply quiet_same|].
    destruct (App.currentSession _); [now apply quiet_same|].
    eapply quiet_trans; [|apply setCurrentSession_effect].
    now apply quiet_same.
  - injection E as <-. now apply quiet_same.
  - injection E as <-. eapply quiet_one; try reflexivity; try exact I.
  - injection E as <-. apply quiet_refl.
  - injection E as <-. now apply quiet_same.
  - injection E as <-. split; reflexivity.
  - injection E as <-. split; reflexivity.
  - injection E as <-. now apply quiet_same.
  - destruct (_ =? _)%Z; [|discriminate]. injection E as <-.
    unfold ChatComponent.deleteSession_next. cbv zeta.
    eapply quiet_trans with (b := _); [|now apply quiet_same].
    destruct (ChatComponent.is_current s _).
    + eapply quiet_trans; [|apply setCurrentSession_effect].
      now apply quiet_same.
    + now apply quiet_same.
Qed.

Lemma act_synced (u : action) (a : App.t) : synced a -> synced (act u a).
Proof.
  unfold synced. intros [Hs Hm].
  destruct u as [text| |event|session|session confirmed|prompted|];
    cbn [act]; unfold onKeyPress, ChatComponent.sendMessage,
      ChatComponent.deleteSession, ChatComponent.createNewSession;
    repeat match goal with
           | |- context [if ?b then _ else _] => destruct b
           | |- context [match ?x with Some _ => _ | None => _ end] =>
               destruct x
           end;
    cbn; auto.
Qed.

Lemma handle_synced (c : Http.call) (o : outcome) (a a' : App.t) :
  handle c o a = Some a' -> synced a -> synced a'.
Proof.
  unfold synced. intros E [Hs Hm].
  destruct c as [userId|userId title|sessionId|request|sessionId],
           o as [|l|s|l|response t1 t2|s];
    cbn [handle] in E; try discriminate;
    try (destruct (_ =? _)%Z; [|discriminate]);
    injection E as <-;
    unfold ChatComponent.loadSessions_next, ChatComponent.deleteSession_next;
    cbv zeta;
    repeat match goal with
           | |- context [if ?b then _ else _] => destruct b
           | |- context [match ?x with [] => _ | _ :: _ => _ end] =>
               destruct x
           | |- context [match ?x with Some _ => _ | None => _ end] =>
               destruct x
           | |- context [hd_error ?l] => destruct (hd_error l)
           end;
    cbn; auto.
Qed.

End Handlers.

Lemma sent_since_app (a a' : App.t) (l : list Http.call) :
  App.requests a' = (App.requests a ++ l)%list -> sent_since a a' = l.
Proof.
  unfold sent_since. intros ->.
  rewrite skipn_app, skipn_all, Nat.sub_diag. reflexivity.
Qed.

Lemma filter_remove_nth {A : Type} (f : A -> bool) (l : list A) (i : nat)
  (c : A) :
  nth_error l i = Some c ->
  List.length (filter f l) =
    (List.length (filter f (remove_nth i l)) + if f c then 1 else 0)%nat.
Proof.
  intros E. unfold remove_nth.
  rewrite <- (firstn_skipn_middle i l E) at 1.
  rewrite !filter_app, !length_app. cbn [filter].
  destruct (f c); cbn [List.length]; lia.
Qed.

(** What every page reached keeps. *)
Definition invariant (p : page) : Prop :=
  synced (app p) /\
  List.length (in_flight p) = (if App.isLoading (app p) then 1 else 0)%nat /\
  Forall well_formed (App.requests (app p)).

Lemma start_invariant : invariant start.
Proof.
  split; [split; reflexivity|]. split; [reflexivity|].
  repeat constructor.
Qed.

Section Steps.
Context `{Js.Runtime}.

Lemma step_invariant (p p' : page) (e : event) :
  invariant p -> step p e = Some p' -> invariant p'.
Proof.
  unfold invariant, in_flight. intros (Hs & Hf & Hw) E.
  destruct e as [u|i o]; cbn [step] in E.
  - injection E as <-. cbn [app pending].
    split; [now apply act_synced|].
    destruct (act_effect u (app p))
      as [(Hl & l & Hr & Hp & Hwl) | (Hl & Hl' & r & Hr & Hwr)].
    + rewrite (sent_since_app _ _ _ Hr), filter_app, Hp, app_nil_r, Hl, Hr.
      split; [exact Hf | now apply Forall_app].
    + rewrite (sent_since_app _ _ _ Hr), filter_app, length_app, Hf, Hl, Hl', Hr.
      split; [reflexivity|].
      apply Forall_app. split; [exact Hw | now constructor].
  - destruct (nth_error (pending p) i) as [c|] eqn:N; [|discriminate].
    destruct (handle c o (app p)) as [a'|] eqn:Hh; [|discriminate].
    injection E as <-. cbn [app pending].
    split; [now apply (handle_synced c o (app p))|].
    pose proof (handle_effect c o (app p) a' Hh) as Eff.
    pose proof (filter_remove_nth is_post (pending p) i c N) as Cnt.
    destruct (is_post c).
    + destruct Eff as [Hl Hr].
      assert (Hnil : sent_since (app p) a' = []).
      { apply sent_since_app. now rewrite app_nil_r. }
      rewrite Hnil, app_nil_r, Hl, Hr. split; [|exact Hw].
      destruct (App.isLoading (app p)); lia.
    + destruct Eff as (Hl & l & Hr & Hp & Hwl).
      rewrite (sent_since_app _ _ _ Hr), filter_app, Hp, app_nil_r, Hl, Hr.
      split; [lia | now apply Forall_app].
Qed.

Lemma run_invariant (events : list event) (p p' : page) :
  invariant p -> run p events = Some p' -> invariant p'.
Proof.
  revert p. induction events as [|e rest IH]; intros p Hi E; cbn [run] in E.
  - now injection E as <-.
  - destruct (step p e) as [q|] eqn:S; [|discriminate].
    exact (IH q (step_invariant p q e Hi S) E).
Qed.

End Steps.

End MachineFacts.

(** Three events on the page of the examples: the user types, sends, and
    the send fails (the request of [ngOnInit] is the first that waits,
    the message the second). *)
Definition typed_sent_failed : list ChatEvents.event :=
  [ChatEvents.User (ChatEvents.Type_text " hi ");
   ChatEvents.User ChatEvents.Click_send;
   ChatEvents.Response 1 ChatEvents.Failed].

(** X15: on every page reached from the start by actions of the user and
    responses to waiting requests, the view shows the current session and
    the messages the service holds. *)
Theorem view_shows_what_service_holds `{Runtime}
  (events : list ChatEvents.event) (p : ChatEvents.page) :
  ChatEvents.run ChatEvents.start events = Some p ->
  App.currentSession (ChatEvents.app p)
    = ChatService.getCurrentSession (ChatEvents.app p) /\
  App.messages (ChatEvents.app p)
    = ChatService.getCurrentMessages (ChatEvents.app p).
Proof.
  intros E.
  exact (proj1 (MachineFacts.run_invariant events _ p
                  MachineFacts.start_invariant E)).
Qed.

Lemma view_shows_what_service_holds_witness :
  exists p,
    @ChatEvents.run Example.runtime ChatEvents.start typed_sent_failed
      = Some p /\
    App.currentSession (ChatEvents.app p)
      = ChatService.getCurrentSession (ChatEvents.app p) /\
    App.messages (ChatEvents.app p)
      = ChatService.getCurrentMessages (ChatEvents.app p).
Proof.
  eexists. split; [reflexivity|].
  exact (@view_shows_what_service_holds Example.runtime
           typed_sent_failed _ eq_refl).
Defined.

(** X16: on every page reached, at most one message waits for its answer,
    and the loading flag is up exactly while one does. *)
Theorem one_send_in_flight `{Runtime}
  (events : list ChatEvents.event) (p : ChatEvents.page) :
  ChatEvents.run ChatEvents.start events = Some p ->
  List.length (ChatEvents.in_flight p) =
    (if App.isLoading (ChatEvents.app p) then 1 else 0)%nat.
Proof.
  intros E.
  exact (proj1 (proj2 (MachineFacts.run_invariant events _ p
                         MachineFacts.start_invariant E))).
Qed.

Lemma one_send_in_flight_witness :
  exists p,
    @ChatEvents.run Example.runtime ChatEvents.start
      [ChatEvents.User (ChatEvents.Type_text " hi ");
       ChatEvents.User ChatEvents.Click_send;
       ChatEvents.User (ChatEvents.Type_text "again");
       ChatEvents.User ChatEvents.Click_send] = Some p /\
    List.length (ChatEvents.in_flight p) = 1%nat /\
    App.isLoading (ChatEvents.app p) = true.
Proof.
  eexists. split; [reflexivity|]. split; [|reflexivity].
  exact (@one_send_in_flight Example.runtime
           [ChatEvents.User (ChatEvents.Type_text " hi ");
            ChatEvents.User ChatEvents.Click_send;
            ChatEvents.User (ChatEvents.Type_text "again");
            ChatEvents.User ChatEvents.Click_send] _ eq_refl).
Defined.

(** X17: every request the page has sent is well formed: a message that
    is posted is not empty, has no white space around it and is posted
    for the user "default_user", as are the requests for the sessions and
    for a new session, whose title is never empty. *)
Theorem requests_well_formed `{Runtime}
  (events : list ChatEvents.event) (p : ChatEvents.page) :
  ChatEvents.run ChatEvents.start events = Some p ->
  Forall ChatEvents.well_formed (App.requests (ChatEvents.app p)).
Proof.
  intros E.
  exact (proj2 (proj2 (MachineFacts.run_invariant events _ p
                         MachineFacts.start_invariant E))).
Qed.

Lemma requests_well_formed_witness :
  exists p,
    @ChatEvents.run Example.runtime ChatEvents.start
      [ChatEvents.User (ChatEvents.New_session (Some "Trip"));
       ChatEvents.User (ChatEvents.Type_text " hi ");
       ChatEvents.User (ChatEvents.Press (KeyboardEvent.mk "Enter" false))]
      = Some p /\
    Forall ChatEvents.well_formed (App.requests (ChatEvents.app p)).
Proof.
  eexists. split; [reflexivity|].
  exact (@requests_well_formed Example.runtime
           [ChatEvents.User (ChatEvents.New_session (Some "Trip"));
            ChatEvents.User (ChatEvents.Type_text " hi ");
            ChatEvents.User (ChatEvents.Press (KeyboardEvent.mk "Enter" false))]
           _ eq_refl).
Defined.
